(** * pdf2csv: a shallow embedding of [fix_csv.py] and [pdf2csv.py]

    The two scripts are pure list and string transformations once the file
    and PDF input/output is set aside.  They are embedded as Rocq functions
    over [string] and [list]; every Python operation that can raise
    ([l[i]], [l[i] = v], [d[k]], [dateutil.parser.parse]) is a computation
    in the error monad [result], so that "does not raise" is a theorem and
    not a modelling choice.

    A Python [str] is modelled as a [string] whose characters are the code
    points below 256.  On this range [\d] is exactly ['0'..'9'] and the
    white space of [str.split] and [\s] is the set listed in [is_space]. *)

From Stdlib Require Import List String Ascii Bool Arith Lia.
From Stdlib Require Import DecimalString.
From Stdlib Require DecimalNat.
Import ListNotations.

Set Warnings "-abstract-large-number".

Local Open Scope string_scope.
Local Open Scope nat_scope.
Local Open Scope list_scope.

(** ** Python values and control *)

Module Py.

(** The exceptions the two scripts can meet. [ParserError] is the
    [ValueError] subclass raised by [dateutil.parser.parse]. *)
Inductive exn : Type :=
| IndexError
| KeyError
| ParserError.

Inductive result (A : Type) : Type :=
| Ok (a : A)
| Raise (e : exn).

Arguments Ok {A} a.
Arguments Raise {A} e.

Definition bind {A B : Type} (c : result A) (k : A -> result B) : result B :=
  match c with
  | Ok a => k a
  | Raise e => Raise e
  end.

Declare Scope py_scope.
Delimit Scope py_scope with py.
Notation "x <- c ;; k" := (bind c (fun x => k))
  (at level 61, c at next level, right associativity) : py_scope.

Local Open Scope py_scope.

(** [for i in range(n): body], threading the loop state. *)
Definition for_range {S : Type} (n : nat) (body : nat -> S -> result S)
    (s : S) : result S :=
  fold_left (fun acc i => st <- acc ;; body i st) (seq 0 n) (Ok s).

(** *** Lists *)

(** [l[i]] for [0 <= i]. *)
Definition getitem {A : Type} (l : list A) (i : nat) : result A :=
  match nth_error l i with
  | Some x => Ok x
  | None => Raise IndexError
  end.

(** [l[-k]] for [1 <= k]. *)
Definition getitem_back {A : Type} (l : list A) (k : nat) : result A :=
  if (1 <=? k) && (k <=? List.length l) then getitem l (List.length l - k)
  else Raise IndexError.

Fixpoint update {A : Type} (l : list A) (i : nat) (x : A) : list A :=
  match l, i with
  | [], _ => []
  | _ :: t, 0 => x :: t
  | h :: t, S j => h :: update t j x
  end.

(** [l[i] = x] for [0 <= i]. *)
Definition setitem {A : Type} (l : list A) (i : nat) (x : A)
    : result (list A) :=
  if i <? List.length l then Ok (update l i x) else Raise IndexError.

Fixpoint enumerate_from {A : Type} (start : nat) (l : list A)
    : list (nat * A) :=
  match l with
  | [] => []
  | x :: t => (start, x) :: enumerate_from (S start) t
  end.

Definition enumerate {A : Type} (l : list A) : list (nat * A) :=
  enumerate_from 0 l.

(** [next((i for i, v in enumerate(l) if p(v)), None)] *)
Definition next_index {A : Type} (p : A -> bool) (l : list A) : option nat :=
  match find (fun iv => p (snd iv)) (enumerate l) with
  | Some iv => Some (fst iv)
  | None => None
  end.

(** [[i for i, v in enumerate(l) if p(v)]] *)
Definition indices_where {A : Type} (p : A -> bool) (l : list A) : list nat :=
  map fst (filter (fun iv => p (snd iv)) (enumerate l)).

(** [l[1:-2]]: the stop index [len(l) - 2] is clamped at 0. *)
Definition slice_1_m2 {A : Type} (l : list A) : list A :=
  skipn 1 (firstn (List.length l - 2) l).

(** *** Strings *)

(** Truth value of a string: non-empty. *)
Definition truthy (s : string) : bool := negb (s =? "")%string.

(** [a or b] on strings. *)
Definition or_else (a b : string) : string := if truthy a then a else b.

(** Every character of [s] satisfies [p]. *)
Fixpoint all_chars (p : ascii -> bool) (s : string) : bool :=
  match s with
  | EmptyString => true
  | String c rest => p c && all_chars p rest
  end.

Definition in_range (lo hi : nat) (c : ascii) : bool :=
  (lo <=? nat_of_ascii c) && (nat_of_ascii c <=? hi).

(** [\d] *)
Definition is_digit (c : ascii) : bool := in_range 48 57 c.

(** [str.isspace] per character, which is also [\s]: TAB..CR, FS..US,
    SPACE, NEL and NBSP. *)
Definition is_space (c : ascii) : bool :=
  in_range 9 13 c || in_range 28 32 c
  || (nat_of_ascii c =? 133) || (nat_of_ascii c =? 160).

(** [s.split()]: maximal runs of non-space characters. [cur] is the token
    being read. *)
Fixpoint split_from (cur : string) (s : string) : list string :=
  match s with
  | EmptyString => if truthy cur then [cur] else []
  | String c rest =>
      if is_space c then
        if truthy cur then cur :: split_from "" rest else split_from "" rest
      else split_from (cur ++ String c "")%string rest
  end.

Definition split (s : string) : list string := split_from "" s.

(** [sep.join(l)] is [String.concat sep l]; [s.startswith(p)] is
    [String.prefix p s]. *)
Definition join (sep : string) (l : list string) : string :=
  String.concat sep l.

Definition startswith (s p : string) : bool := String.prefix p s.

(** [int(s)] for a string of decimal digits. *)
Definition digit_value (c : ascii) : nat := nat_of_ascii c - 48.

Fixpoint int_from (acc : nat) (s : string) : nat :=
  match s with
  | EmptyString => acc
  | String c rest => int_from (10 * acc + digit_value c) rest
  end.

Definition int (s : string) : nat := int_from 0 s.

(** [str(n)] for [0 <= n]. *)
Definition str (n : nat) : string :=
  NilEmpty.string_of_uint (Nat.to_uint n).

Fixpoint zeros (n : nat) : string :=
  match n with
  | 0 => ""
  | S m => String "0" (zeros m)
  end.

(** [f"{n:0{width}d}"] for [0 <= n]. *)
Definition format_0d (width : nat) (n : nat) : string :=
  (zeros (width - String.length (str n)) ++ str n)%string.

(** *** Dictionaries

    A [dict] keeps its items in insertion order, which [items()] exposes. *)
Definition dict : Type := list (string * string).

Fixpoint lookup (d : dict) (k : string) : option string :=
  match d with
  | [] => None
  | (k', v) :: t => if (k' =? k)%string then Some v else lookup t k
  end.

(** [d.get(k, default)] *)
Definition dict_get (d : dict) (k default : string) : string :=
  match lookup d k with
  | Some v => v
  | None => default
  end.

(** [k in d] *)
Definition dict_contains (d : dict) (k : string) : bool :=
  match lookup d k with
  | Some _ => true
  | None => false
  end.

(** [d[k]] *)
Definition dict_getitem (d : dict) (k : string) : result string :=
  match lookup d k with
  | Some v => Ok v
  | None => Raise KeyError
  end.

(** [d[k] = v]: a present key keeps its place, a new key goes last. *)
Fixpoint dict_set (d : dict) (k v : string) : dict :=
  match d with
  | [] => [(k, v)]
  | (k', v') :: t =>
      if (k' =? k)%string then (k, v) :: t else (k', v') :: dict_set t k v
  end.

(** *** Lines of text *)

(** The line boundaries of [str.splitlines] below 256: LF, VT, FF, CR, FS,
    GS, RS and NEL. *)
Definition is_linebreak (c : ascii) : bool :=
  in_range 10 13 c || in_range 28 30 c || (nat_of_ascii c =? 133).

(** [s.splitlines()]: CR LF is one boundary, and a final boundary opens no
    further line. [cur] is the line being read. *)
Fixpoint splitlines_from (cur : string) (s : string) : list string :=
  match s with
  | EmptyString => if truthy cur then [cur] else []
  | String c rest =>
      if is_linebreak c then
        cur :: match rest with
               | String d rest' =>
                   if (nat_of_ascii c =? 13) && (nat_of_ascii d =? 10)
                   then splitlines_from "" rest'
                   else splitlines_from "" rest
               | EmptyString => splitlines_from "" rest
               end
      else splitlines_from (cur ++ String c "")%string rest
  end.

Definition splitlines (s : string) : list string := splitlines_from "" s.

(** [s.lstrip()], [s.rstrip()] and [s.strip()]. *)
Fixpoint lstrip (s : string) : string :=
  match s with
  | EmptyString => ""
  | String c rest => if is_space c then lstrip rest else s
  end.

Fixpoint rstrip (s : string) : string :=
  match s with
  | EmptyString => ""
  | String c rest =>
      match rstrip rest with
      | EmptyString => if is_space c then "" else String c ""
      | kept => String c kept
      end
  end.

Definition strip (s : string) : string := lstrip (rstrip s).

End Py.

(** ** Regular expressions (the fragment of [re] the scripts use) *)

Module Re.

Inductive regex : Type :=
| Void
| Eps
| Class (p : ascii -> bool)
| Cat (r1 r2 : regex)
| Alt (r1 r2 : regex)
| Star (r : regex).

(** A literal string. *)
Fixpoint Lit (s : string) : regex :=
  match s with
  | EmptyString => Eps
  | String c rest => Cat (Class (Ascii.eqb c)) (Lit rest)
  end.

(** [r{n}] *)
Fixpoint Rep (n : nat) (r : regex) : regex :=
  match n with
  | 0 => Eps
  | S m => Cat r (Rep m r)
  end.

(** [r{n,}] *)
Definition AtLeast (n : nat) (r : regex) : regex := Cat (Rep n r) (Star r).

(** [r+] *)
Definition Plus (r : regex) : regex := Cat r (Star r).

(** [r?] *)
Definition Opt (r : regex) : regex := Alt r Eps.

(** [\d] and [\s] *)
Definition digit : regex := Class Py.is_digit.
Definition space : regex := Class Py.is_space.

(** The language of a regular expression. *)
Inductive lang : regex -> string -> Prop :=
| lang_eps : lang Eps ""
| lang_class p c : p c = true -> lang (Class p) (String c "")
| lang_cat r1 r2 s1 s2 :
    lang r1 s1 -> lang r2 s2 -> lang (Cat r1 r2) (s1 ++ s2)
| lang_alt_l r1 r2 s : lang r1 s -> lang (Alt r1 r2) s
| lang_alt_r r1 r2 s : lang r2 s -> lang (Alt r1 r2) s
| lang_star_nil r : lang (Star r) ""
| lang_star_cons r s1 s2 :
    lang r s1 -> lang (Star r) s2 -> lang (Star r) (s1 ++ s2).

(** Matching by derivatives. *)
Fixpoint nullable (r : regex) : bool :=
  match r with
  | Void => false
  | Eps => true
  | Class _ => false
  | Cat r1 r2 => nullable r1 && nullable r2
  | Alt r1 r2 => nullable r1 || nullable r2
  | Star _ => true
  end.

Fixpoint deriv (c : ascii) (r : regex) : regex :=
  match r with
  | Void => Void
  | Eps => Void
  | Class p => if p c then Eps else Void
  | Cat r1 r2 =>
      if nullable r1 then Alt (Cat (deriv c r1) r2) (deriv c r2)
      else Cat (deriv c r1) r2
  | Alt r1 r2 => Alt (deriv c r1) (deriv c r2)
  | Star r1 => Cat (deriv c r1) (Star r1)
  end.

(** [re.fullmatch(r, s) is not None] *)
Fixpoint fullmatch (r : regex) (s : string) : bool :=
  match s with
  | EmptyString => nullable r
  | String c rest => fullmatch (deriv c r) rest
  end.

(** [re.match("^r$", s) is not None]: without [re.MULTILINE] the [$]
    anchor holds at the end of [s] and also just before a newline that
    ends [s]. *)
Definition match_anchored (r : regex) (s : string) : bool :=
  fullmatch (Cat r (Opt (Lit (String "010" "")))) s.

(** [re.search(r, s)] for a pattern [r] all of whose matches are [width]
    characters long: the leftmost window of [s] in the language of [r],
    which is [m.group(0)]. *)
Fixpoint search_fixed (r : regex) (width : nat) (s : string)
    : option string :=
  if fullmatch r (substring 0 width s) then Some (substring 0 width s)
  else
    match s with
    | EmptyString => None
    | String _ rest => search_fixed r width rest
    end.

(** [m] is a match of [r] inside [s], after [pre] and before [post]. *)
Definition occurs (r : regex) (s pre m post : string) : Prop :=
  s = (pre ++ m ++ post)%string /\ lang r m.

(** ... and no match of [r] inside [s] starts further to the left. *)
Definition leftmost (r : regex) (s pre m post : string) : Prop :=
  occurs r s pre m post
  /\ forall pre' m' post',
       occurs r s pre' m' post' -> String.length pre <= String.length pre'.

Definition fixed_width (r : regex) (width : nat) : Prop :=
  forall m, lang r m -> String.length m = width.

End Re.

(** ** dateutil *)

Module Dateutil.

Import Py.

Record datetime : Type := mk_datetime { year : nat; month : nat; day : nat }.

Definition is_leap (y : nat) : bool :=
  (y mod 4 =? 0) && (negb (y mod 100 =? 0) || (y mod 400 =? 0)).

Definition days_in_month (y m : nat) : nat :=
  match m with
  | 1 | 3 | 5 | 7 | 8 | 10 | 12 => 31
  | 4 | 6 | 9 | 11 => 30
  | 2 => if is_leap y then 29 else 28
  | _ => 0
  end.

(** [datetime.datetime(y, m, d)] accepts exactly the calendar dates of the
    years 1..9999. *)
Definition valid_date (y m d : nat) : bool :=
  (1 <=? y) && (y <=? 9999) && (1 <=? m) && (m <=? 12)
  && (1 <=? d) && (d <=? days_in_month y m).

(** [dateutil.parser.parse(timestr)] on the strings that reach it from
    [find_date_yyyymmdd_in_filename]: a token of eight decimal digits is
    read as [YYYYMMDD] (year first because it has four digits), and the
    three numbers are handed to [datetime], whose [ValueError] on a month
    or day out of range is re-raised as [ParserError].  Strings of any
    other shape never reach the parser in [pdf2csv.py]
    (see [find_date_shape]); they are outside this model and answered with
    [ParserError]. *)
Definition parse (timestr : string) : result datetime :=
  if Re.fullmatch (Re.Rep 8 Re.digit) timestr then
    let y := int (substring 0 4 timestr) in
    let m := int (substring 4 2 timestr) in
    let d := int (substring 6 2 timestr) in
    if valid_date y m d then Ok (mk_datetime y m d) else Raise ParserError
  else Raise ParserError.

End Dateutil.

(** ** fix_csv.py *)

Module FixCsv.

Import Py.
Local Open Scope py_scope.

Definition EXPECTED_HEADER : list string :=
  [ "STATUS"; "END TO END ID"; "MERCHANT"; "AMOUNT"; "DUE DATE";
    "CUSTOMER BIC"; "CUSTOMER IBAN"; "CUSTOMER NAME"; "CUSTOMER ID";
    "ADDITIONAL INFO 1"; "ADDITIONAL INFO 2"; "IMPORTED DATE";
    "MANDATE REFERENCE"; "TRANSACTION INFORMATION";
    "TRANSACTION TYPE NAME"; "ERROR CODE"; "ERROR REASON";
    "MERCHANT PRODUCT NAME"; "HAS CHARGEBACK" ].

(** [^\d{6,}-\d{4}-\d{2}-\d{2}$], without the anchors. *)
Definition MANDATE_LIKE_RE : Re.regex :=
  Re.Cat (Re.AtLeast 6 Re.digit)
    (Re.Cat (Re.Lit "-")
       (Re.Cat (Re.Rep 4 Re.digit)
          (Re.Cat (Re.Lit "-")
             (Re.Cat (Re.Rep 2 Re.digit)
                (Re.Cat (Re.Lit "-") (Re.Rep 2 Re.digit)))))).

(** [MANDATE_LIKE_RE.match(v or "")] as a truth value. *)
Definition mandate_like (v : string) : bool :=
  Re.match_anchored MANDATE_LIKE_RE (or_else v "").

Definition normalize_row (fields : list string) : result (list string) :=
  if List.length fields =? List.length EXPECTED_HEADER then Ok fields
  else
    let fixed := repeat "" (List.length EXPECTED_HEADER) in
    (* Copy early stable columns 0..8 *)
    fixed <- for_range (Nat.min 9 (List.length fields))
               (fun i fixed => v <- getitem fields i ;; setitem fixed i v)
               fixed ;;
    (* Detect the ID-date value *)
    let id_date_idx := next_index mandate_like fields in
    fixed <- match id_date_idx with
             | Some idx => v <- getitem fields idx ;; setitem fixed 13 v
             | None => Ok fixed
             end ;;
    (* Last non-empty tokens go to 15 and 16 *)
    let tail := indices_where truthy fields in
    fixed <- match tail with
             | _ :: _ =>
                 if 2 <=? List.length tail then
                   i2 <- getitem_back tail 2 ;;
                   v2 <- getitem fields i2 ;;
                   fixed <- setitem fixed 15 v2 ;;
                   i1 <- getitem_back tail 1 ;;
                   v1 <- getitem fields i1 ;;
                   setitem fixed 16 v1
                 else
                   i1 <- getitem_back tail 1 ;;
                   v1 <- getitem fields i1 ;;
                   setitem fixed 15 v1
             | [] => Ok fixed
             end ;;
    Ok fixed.

(** [for fields in reader: writer.writerow(normalize_row(fields))], with
    the rows handed to the writer as the loop state. *)
Fixpoint write_fixed (reader : list (list string))
    (written : list (list string)) : result (list (list string)) :=
  match reader with
  | [] => Ok written
  | fields :: rest =>
      fixed <- normalize_row fields ;;
      write_fixed rest (written ++ [fixed])
  end.

(** [main(argv)].  The two files are seen through the [csv] module:
    [reader] is the list of rows [csv.reader] yields for [argv[0]], and the
    result is the exit status with the rows given to [csv.writer] for
    [argv[1]], or [None] when no file is opened. *)
Definition main (argv : list string) (reader : list (list string))
    : result (nat * option (list (list string))) :=
  if List.length argv <? 2 then Ok (2, None)
  else
    (* Always write expected header *)
    let written := [EXPECTED_HEADER] in
    (* header = next(reader, None) *)
    let reader := skipn 1 reader in
    written <- write_fixed reader written ;;
    Ok (0, Some written).

End FixCsv.

(** ** pdf2csv.py *)

Module Pdf2csv.

Import Py.
Local Open Scope py_scope.

Definition CSV_HEADER : list string :=
  [ "STATUS"; "END TO END ID"; "MERCHANT"; "AMOUNT"; "DUE DATE";
    "CUSTOMER BIC"; "CUSTOMER IBAN"; "CUSTOMER NAME"; "CUSTOMER ID";
    "ADDITIONAL INFO 1"; "ADDITIONAL INFO 2"; "IMPORTED DATE";
    "MANDATE REFERENCE"; "TRANSACTION INFORMATION";
    "TRANSACTION TYPE NAME"; "ERROR CODE"; "ERROR REASON";
    "MERCHANT PRODUCT NAME"; "HAS CHARGEBACK" ].

Definition DEFAULT_MERCHANT : string := "PPS Perfunctio Payment Services GmbH".

Definition ERROR_REASON_MAP : dict :=
  [ ("KC2-BL001", "User in the Blacklist") ].

Definition PRODUCT_AMOUNT_BY_TWO_DIGIT : dict :=
  [ ("35", "39.90"); ("15", "54.90"); ("25", "54.90") ].

Definition PRODUCT_AMOUNT_BY_PREFIX : dict :=
  [ ("PPS_DB_VPLUS1new", "54.90");
    ("PPS_DB_VPLUS2new", "39.90");
    ("PPS_DB_VPLUS3", "39.90") ].

(** [(20\d{6})]: every match is 8 characters long. *)
Definition DATE_RE : Re.regex := Re.Cat (Re.Lit "20") (Re.Rep 6 Re.digit).

Definition find_date_yyyymmdd_in_filename (filename : string) : string :=
  match Re.search_fixed DATE_RE 8 filename with
  | Some group1 => group1
  | None => ""
  end.

Definition yyyymmdd_to_first_of_month (yyyymmdd : string) : result string :=
  if negb (truthy yyyymmdd) then Ok ""
  else
    dt <- Dateutil.parse yyyymmdd ;;
    Ok (format_0d 4 (Dateutil.year dt) ++ "-"
        ++ format_0d 2 (Dateutil.month dt) ++ "-01")%string.

(** [(\d{2})new]: every match is 5 characters long and group 1 is its
    first two characters. *)
Definition TWO_DIGIT_NEW_RE : Re.regex :=
  Re.Cat (Re.Rep 2 Re.digit) (Re.Lit "new").

(** The [for prefix, amount in ...items()] loop with its early return. *)
Fixpoint first_prefix_amount (items : dict) (filename : string)
    : option string :=
  match items with
  | [] => None
  | (prefix, amount) :: rest =>
      if startswith filename prefix then Some amount
      else first_prefix_amount rest filename
  end.

Definition detect_amount_from_filename (filename : string) : result string :=
  match first_prefix_amount PRODUCT_AMOUNT_BY_PREFIX filename with
  | Some amount => Ok amount
  | None =>
      match Re.search_fixed TWO_DIGIT_NEW_RE 5 filename with
      | Some m =>
          let two := substring 0 2 m in
          if dict_contains PRODUCT_AMOUNT_BY_TWO_DIGIT two
          then dict_getitem PRODUCT_AMOUNT_BY_TWO_DIGIT two
          else Ok ""
      | None => Ok ""
      end
  end.

(** [^Dateiname\s+Name\s+Kundennummer\s+Fehler$], without the anchors. *)
Definition HEADER_RE : Re.regex :=
  Re.Cat (Re.Lit "Dateiname")
    (Re.Cat (Re.Plus Re.space)
       (Re.Cat (Re.Lit "Name")
          (Re.Cat (Re.Plus Re.space)
             (Re.Cat (Re.Lit "Kundennummer")
                (Re.Cat (Re.Plus Re.space) (Re.Lit "Fehler")))))).

(** The dict literal [record = {...}] of the loop body. *)
Definition record (amount customer_name customer_id id_date_value
                   error_code : string) : dict :=
  [ ("STATUS", "REJECTED");
    ("END TO END ID", "");
    ("MERCHANT", DEFAULT_MERCHANT);
    ("AMOUNT", amount);
    ("DUE DATE", "");
    ("CUSTOMER BIC", "");
    ("CUSTOMER IBAN", "");
    ("CUSTOMER NAME", customer_name);
    ("CUSTOMER ID", customer_id);
    ("ADDITIONAL INFO 1", "");
    ("ADDITIONAL INFO 2", "");
    ("IMPORTED DATE", "");
    ("MANDATE REFERENCE", "");
    ("TRANSACTION INFORMATION", id_date_value);
    ("TRANSACTION TYPE NAME", "");
    ("ERROR CODE", error_code);
    ("ERROR REASON", dict_get ERROR_REASON_MAP error_code "");
    ("MERCHANT PRODUCT NAME", "");
    ("HAS CHARGEBACK", "") ].

(** One turn of the loop over the lines: [None] is [continue], [Some r]
    is the record that is appended. *)
Definition parse_line (line : string) : result (option dict) :=
  let parts := split line in
  if List.length parts <? 4 then Ok None
  else
    filename_token <- getitem parts 0 ;;
    error_code <- getitem_back parts 1 ;;
    customer_id <- getitem_back parts 2 ;;
    let customer_name := join " " (slice_1_m2 parts) in
    if negb (Re.fullmatch (Re.Plus Re.digit) customer_id) then Ok None
    else
      let yyyymmdd := find_date_yyyymmdd_in_filename filename_token in
      mandate_date <- yyyymmdd_to_first_of_month yyyymmdd ;;
      let id_date_value :=
        if truthy mandate_date
        then (customer_id ++ "-" ++ mandate_date)%string
        else customer_id in
      amount <- detect_amount_from_filename filename_token ;;
      Ok (Some (record amount customer_name customer_id id_date_value
                  error_code)).

(** [for line in lines: ...], with [records] as the loop state. *)
Fixpoint parse_lines (lines : list string) (records : list dict)
    : result (list dict) :=
  match lines with
  | [] => Ok records
  | line :: rest =>
      step <- parse_line line ;;
      match step with
      | None => parse_lines rest records
      | Some record => parse_lines rest (records ++ [record])
      end
  end.

Definition parse_records_from_lines (lines : list string)
    : result (list dict) :=
  let records := [] in
  match lines with
  | [] => Ok records
  | _ :: _ =>
      first <- getitem lines 0 ;;
      let start_index := if Re.match_anchored HEADER_RE first then 1 else 0 in
      parse_lines (skipn start_index lines) records
  end.

(** [extract_text_lines(pdf_path)].  [pages] is what
    [page.extract_text(x_tolerance=2, y_tolerance=2)] answers for each page
    of the document, [None] for a page without text. *)
Definition extract_text_lines (pages : list (option string)) : list string :=
  fold_left
    (fun lines page =>
       let text :=
         match page with
         | Some extracted => or_else extracted ""
         | None => ""
         end in
       fold_left
         (fun lines line =>
            let cleaned := strip line in
            if truthy cleaned then lines ++ [cleaned] else lines)
         (splitlines text) lines)
    pages [].

(** [dump_text(pdf_path, out_text_path)]: the text written to
    [out_text_path]. *)
Definition dump_text (pages : list (option string)) : string :=
  join (String "010" "") (extract_text_lines pages).

(** [csv.DictWriter(f, fieldnames).writerow(rowdict)] up to the text
    written: the values in the order of [fieldnames], [""] for a missing
    key, and [None] for the [ValueError] raised when [rowdict] has a key
    that is not a field name. *)
Definition dictwriter_row (fieldnames : list string) (rowdict : dict)
    : option (list string) :=
  if forallb (fun kv => existsb (String.eqb (fst kv)) fieldnames) rowdict
  then Some (map (fun key => dict_get rowdict key "") fieldnames)
  else None.

(** [for rec in records: ...] of [write_csv], with the rows handed to the
    writer as the loop state. *)
Fixpoint write_rows (records : list dict) (written : list (list string))
    : option (list (list string)) :=
  match records with
  | [] => Some written
  | rec :: rest =>
      (* row = {key: rec.get(key, "") for key in CSV_HEADER} *)
      let row :=
        fold_left (fun row key => dict_set row key (dict_get rec key ""))
          CSV_HEADER [] in
      match dictwriter_row CSV_HEADER row with
      | Some values => write_rows rest (written ++ [values])
      | None => None
      end
  end.

(** [write_csv(records, out_path)]: the rows given to the writer, the
    header first. *)
Definition write_csv (records : list dict) : option (list (list string)) :=
  write_rows records [CSV_HEADER].

End Pdf2csv.

(** ** The repaired row, slot by slot

    What [fix_csv.py] leaves in each slot of a row whose length is not 19,
    written without loops or assignments.  [normalize_row_repair] below
    shows that the program computes exactly this row. *)

Module RowSpec.

Import Py.

(** The first mandate-like value, or nothing. *)
Definition anchor (fields : list string) : string :=
  match find FixCsv.mandate_like fields with
  | Some v => v
  | None => ""
  end.

(** The last two non-empty values, as (ERROR CODE, ERROR REASON). *)
Definition salvage (fields : list string) : string * string :=
  match rev (filter truthy fields) with
  | last :: before :: _ => (before, last)
  | [only] => (only, "")
  | [] => ("", "")
  end.

Definition lead (fields : list string) (i : nat) : string := nth i fields "".

Definition normalized (fields : list string) : list string :=
  [ lead fields 0; lead fields 1; lead fields 2; lead fields 3;
    lead fields 4; lead fields 5; lead fields 6; lead fields 7;
    lead fields 8; ""; ""; ""; ""; anchor fields; "";
    fst (salvage fields); snd (salvage fields); ""; "" ].

End RowSpec.

(** ** The parts of a text line

    The four things [parse_records_from_lines] reads off a line, written
    with total list functions; [parse_line_spec] below relates them to the
    subscripts of the program. *)

Module LineSpec.

Import Py.

Definition filename_of (line : string) : string := nth 0 (split line) "".

Definition error_code_of (line : string) : string :=
  nth (List.length (split line) - 1) (split line) "".

Definition customer_id_of (line : string) : string :=
  nth (List.length (split line) - 2) (split line) "".

Definition customer_name_of (line : string) : string :=
  join " " (slice_1_m2 (split line)).

(** No character of [s] is white space. *)
Definition no_space (s : string) : bool :=
  all_chars (fun c => negb (is_space c)) s.

(** Four tokens or more, and a customer id made of digits. *)
Definition accepted (line : string) : bool :=
  (4 <=? List.length (split line))
  && all_chars is_digit (customer_id_of line).

(** The date found in a file name can be used: there is none, or its
    eight digits are a calendar date. *)
Definition date_usable (filename : string) : Prop :=
  let yyyymmdd := Pdf2csv.find_date_yyyymmdd_in_filename filename in
  yyyymmdd = ""
  \/ Dateutil.valid_date (int (substring 0 4 yyyymmdd))
       (int (substring 4 2 yyyymmdd)) (int (substring 6 2 yyyymmdd))
     = true.

(** The schema fields that [pdf2csv.py] always leaves empty. *)
Definition EMPTY_FIELDS : list string :=
  [ "END TO END ID"; "DUE DATE"; "CUSTOMER BIC"; "CUSTOMER IBAN";
    "ADDITIONAL INFO 1"; "ADDITIONAL INFO 2"; "IMPORTED DATE";
    "MANDATE REFERENCE"; "TRANSACTION TYPE NAME"; "MERCHANT PRODUCT NAME";
    "HAS CHARGEBACK" ].

End LineSpec.

(** * Properties *)

Import Py.
Local Open Scope py_scope.

(** ** Lists and loops *)

Section ListFacts.

Context {A : Type}.
Implicit Types (l : list A) (x : A) (i j n : nat).

Lemma update_length l i x : List.length (update l i x) = List.length l.
Proof.
  revert i; induction l as [|h t IH]; intros [|i]; simpl; auto.
Qed.

Lemma nth_error_update_eq l i x :
  i < List.length l -> nth_error (update l i x) i = Some x.
Proof.
  revert i; induction l as [|h t IH]; intros [|i] Hi; simpl in *;
    try lia; auto.
  apply IH; lia.
Qed.

Lemma nth_error_update_neq l i j x :
  i <> j -> nth_error (update l i x) j = nth_error l j.
Proof.
  revert i j; induction l as [|h t IH]; intros [|i] [|j] Hij; simpl;
    auto; try congruence.
Qed.

Lemma setitem_ok l i x :
  i < List.length l -> setitem l i x = Ok (update l i x).
Proof.
  intros Hi; unfold setitem.
  destruct (Nat.ltb_spec i (List.length l)); [reflexivity | lia].
Qed.

Lemma getitem_ok l i x : nth_error l i = Some x -> getitem l i = Ok x.
Proof. intros H; unfold getitem; now rewrite H. Qed.

Lemma getitem_back_ok l k x :
  1 <= k <= List.length l ->
  nth_error l (List.length l - k) = Some x ->
  getitem_back l k = Ok x.
Proof.
  intros [H1 H2] Hx; unfold getitem_back.
  destruct (Nat.leb_spec 1 k); [|lia].
  destruct (Nat.leb_spec k (List.length l)); [|lia].
  simpl; now apply getitem_ok.
Qed.

Lemma for_range_S {S : Type} n (body : nat -> S -> result S) (s : S) :
  for_range (Datatypes.S n) body s = (st <- for_range n body s ;; body n st).
Proof.
  unfold for_range; rewrite seq_S, fold_left_app; reflexivity.
Qed.

Lemma enumerate_from_nth start l iv :
  In iv (enumerate_from start l) ->
  start <= fst iv /\ nth_error l (fst iv - start) = Some (snd iv).
Proof.
  revert start; induction l as [|h t IH]; intros start Hin; simpl in Hin.
  - contradiction.
  - destruct Hin as [<- | Hin]; simpl.
    + rewrite Nat.sub_diag; auto.
    + destruct (IH _ Hin) as [Hle Hnth]; split; [lia|].
      replace (fst iv - start)
        with (Datatypes.S (fst iv - Datatypes.S start)) by lia.
      exact Hnth.
Qed.

(** [indices_where] lists the positions of the values kept by [filter]. *)
Lemma indices_where_from (p : A -> bool) start l :
  Forall2 (fun i v => start <= i /\ nth_error l (i - start) = Some v)
    (map fst (filter (fun iv => p (snd iv)) (enumerate_from start l)))
    (filter p l).
Proof.
  revert start; induction l as [|h t IH]; intros start; simpl.
  - constructor.
  - assert (Hrest : Forall2
        (fun i v => start <= i /\ nth_error (h :: t) (i - start) = Some v)
        (map fst (filter (fun iv => p (snd iv))
                    (enumerate_from (Datatypes.S start) t)))
        (filter p t)).
    { eapply Forall2_impl; [|apply IH].
      intros i v [Hle Hnth]; split; [lia|].
      replace (i - start) with (Datatypes.S (i - Datatypes.S start)) by lia.
      exact Hnth. }
    destruct (p h); simpl; [constructor|]; auto.
    rewrite Nat.sub_diag; auto.
Qed.

Lemma indices_where_filter (p : A -> bool) l :
  Forall2 (fun i v => nth_error l i = Some v)
    (indices_where p l) (filter p l).
Proof.
  unfold indices_where, enumerate.
  eapply Forall2_impl; [|apply indices_where_from].
  simpl; intros i v [_ H]; now rewrite Nat.sub_0_r in H.
Qed.

End ListFacts.


(** ** Strings *)

Section StringFacts.

Local Open Scope string_scope.

Implicit Types (s t : string) (c : ascii).

Lemma append_nil_r s : s ++ "" = s.
Proof. induction s; simpl; congruence. Qed.

Lemma append_assoc s1 s2 s3 : (s1 ++ s2) ++ s3 = s1 ++ (s2 ++ s3).
Proof. induction s1; simpl; congruence. Qed.

Lemma length_append s1 s2 : length (s1 ++ s2) = (length s1 + length s2)%nat.
Proof. induction s1; simpl; congruence. Qed.

Lemma append_eq_nil s1 s2 : s1 ++ s2 = "" -> s1 = "" /\ s2 = "".
Proof. destruct s1; simpl; [auto | discriminate]. Qed.

Lemma append_inj_length s1 s2 t1 t2 :
  s1 ++ s2 = t1 ++ t2 -> length s1 = length t1 -> s1 = t1 /\ s2 = t2.
Proof.
  revert t1; induction s1 as [|c s1 IH]; intros [|d t1] H L; simpl in *;
    try discriminate; auto.
  injection H as -> H; injection L as L.
  destruct (IH _ H L) as [-> ->]; auto.
Qed.

Lemma substring_prefix n s : exists rest, s = substring 0 n s ++ rest.
Proof.
  revert s; induction n as [|n IH]; intros s.
  - exists s; destruct s; reflexivity.
  - destruct s as [|c s]; simpl.
    + exists ""; reflexivity.
    + destruct (IH s) as [rest Hrest]; exists rest; congruence.
Qed.

Lemma substring_append s t : substring 0 (length s) (s ++ t) = s.
Proof.
  induction s as [|c s IH]; simpl; [now destruct t | congruence].
Qed.

Lemma all_chars_append p s t :
  all_chars p (s ++ t) = all_chars p s && all_chars p t.
Proof.
  induction s as [|c s IH]; simpl; [reflexivity|].
  now rewrite IH, andb_assoc.
Qed.

Lemma truthy_nonempty s : truthy s = true <-> s <> "".
Proof.
  unfold truthy; destruct (String.eqb_spec s ""); simpl; split;
    congruence.
Qed.

End StringFacts.

(** ** Regular expressions: the matcher decides the language *)

Section RegexFacts.

Import Re.
Local Open Scope string_scope.

Implicit Types (r : regex) (s : string) (c : ascii).

Lemma nullable_lang r : nullable r = true <-> lang r "".
Proof.
  split.
  - induction r; simpl; intros H; try discriminate.
    + constructor.
    + apply andb_true_iff in H; destruct H.
      change "" with ("" ++ ""); constructor; auto.
    + apply orb_true_iff in H; destruct H;
        [apply lang_alt_l | apply lang_alt_r]; auto.
    + constructor.
  - intros H; remember "" as s eqn:Hs.
    induction H; simpl; try discriminate; auto.
    + apply append_eq_nil in Hs; destruct Hs.
      rewrite IHlang1, IHlang2; auto.
    + rewrite IHlang; auto.
    + rewrite IHlang; auto using orb_true_r.
Qed.

Lemma deriv_sound c r : forall s, lang (deriv c r) s -> lang r (String c s).
Proof.
  induction r; simpl; intros s H.
  - inversion H.
  - inversion H.
  - destruct (p c) eqn:Hp; inversion H; subst; now constructor.
  - assert (Hcat : forall t, lang (Cat (deriv c r1) r2) t ->
                             lang (Cat r1 r2) (String c t)).
    { intros t Ht; inversion Ht; subst.
      change (String c (s1 ++ s2)) with (String c s1 ++ s2).
      constructor; auto. }
    destruct (nullable r1) eqn:Hn; [|auto].
    inversion H; subst; [auto|].
    change (String c s) with ("" ++ String c s).
    constructor; [now apply nullable_lang | auto].
  - inversion H; subst; [apply lang_alt_l | apply lang_alt_r]; auto.
  - inversion H; subst.
    change (String c (s1 ++ s2)) with (String c s1 ++ s2).
    constructor; auto.
Qed.

Lemma deriv_complete c r s : lang r (String c s) -> lang (deriv c r) s.
Proof.
  intros H; remember (String c s) as cs eqn:Hcs; revert s Hcs.
  induction H; intros t Hcs; simpl; try discriminate.
  - injection Hcs as -> <-; rewrite H; constructor.
  - destruct s1 as [|d s1]; simpl in Hcs.
    + subst s2; assert (Hn : nullable r1 = true) by now apply nullable_lang.
      rewrite Hn; apply lang_alt_r; auto.
    + injection Hcs as -> <-.
      assert (Hl : lang (Cat (deriv c r1) r2) (s1 ++ s2))
        by (constructor; auto).
      destruct (nullable r1); [apply lang_alt_l|]; exact Hl.
  - apply lang_alt_l; auto.
  - apply lang_alt_r; auto.
  - destruct s1 as [|d s1]; simpl in Hcs.
    + subst s2; apply (IHlang2 t eq_refl).
    + injection Hcs as -> <-; constructor; auto.
Qed.

Theorem fullmatch_lang r s : fullmatch r s = true <-> lang r s.
Proof.
  revert r; induction s as [|c s IH]; intros r; simpl.
  - apply nullable_lang.
  - rewrite IH; split; [apply deriv_sound | apply deriv_complete].
Qed.

(** *** Shapes of the languages used by the scripts *)

Lemma lang_cat_inv r1 r2 s :
  lang (Cat r1 r2) s -> exists s1 s2, s = s1 ++ s2 /\ lang r1 s1 /\ lang r2 s2.
Proof. intros H; inversion H; subst; eauto. Qed.

Lemma lang_class_inv p s :
  lang (Class p) s -> exists c, s = String c "" /\ p c = true.
Proof. intros H; inversion H; subst; eauto. Qed.

Lemma lang_lit w s : lang (Lit w) s <-> s = w.
Proof.
  revert s; induction w as [|c w IH]; intros s; simpl.
  - split; intros H; [now inversion H | subst; constructor].
  - split; intros H.
    + apply lang_cat_inv in H; destruct H as (s1 & s2 & -> & H1 & H2).
      apply lang_class_inv in H1; destruct H1 as (d & -> & Hd).
      apply Ascii.eqb_eq in Hd; apply IH in H2; subst; reflexivity.
    + subst; change (String c w) with (String c "" ++ w).
      constructor; [constructor; apply Ascii.eqb_refl | now apply IH].
Qed.

Lemma lang_rep_class p n s :
  lang (Rep n (Class p)) s <-> length s = n /\ all_chars p s = true.
Proof.
  revert s; induction n as [|n IH]; intros s; simpl.
  - split.
    + intros H; inversion H; auto.
    + intros [L _]; destruct s; [constructor | discriminate].
  - split.
    + intros H; apply lang_cat_inv in H.
      destruct H as (s1 & s2 & -> & H1 & H2).
      apply lang_class_inv in H1; destruct H1 as (d & -> & Hd).
      apply IH in H2; destruct H2 as [L Hall]; simpl.
      rewrite Hd, Hall, L; auto.
    + intros [L Hall]; destruct s as [|c s]; [discriminate|].
      simpl in *; apply andb_true_iff in Hall; destruct Hall as [Hc Hall].
      change (String c s) with (String c "" ++ s).
      constructor; [now constructor | apply IH; auto].
Qed.

Lemma lang_star_class p s :
  lang (Star (Class p)) s <-> all_chars p s = true.
Proof.
  split.
  - intros H; remember (Star (Class p)) as r eqn:Hr.
    induction H; try discriminate; [reflexivity|].
    injection Hr as ->.
    apply lang_class_inv in H; destruct H as (d & -> & Hd).
    simpl; rewrite Hd; auto.
  - induction s as [|c s IH]; simpl; intros H; [constructor|].
    apply andb_true_iff in H; destruct H as [Hc Hall].
    change (String c s) with (String c "" ++ s).
    constructor; [now constructor | auto].
Qed.

Lemma lang_plus_class p s :
  lang (Plus (Class p)) s <-> s <> "" /\ all_chars p s = true.
Proof.
  unfold Plus; split.
  - intros H; apply lang_cat_inv in H.
    destruct H as (s1 & s2 & -> & H1 & H2).
    apply lang_class_inv in H1; destruct H1 as (d & -> & Hd).
    apply lang_star_class in H2; simpl; rewrite Hd, H2.
    split; [discriminate | reflexivity].
  - intros [Hne Hall]; destruct s as [|c s]; [congruence|].
    simpl in Hall; apply andb_true_iff in Hall; destruct Hall as [Hc Hall].
    change (String c s) with (String c "" ++ s).
    constructor; [now constructor | now apply lang_star_class].
Qed.

Lemma lang_atleast_class p n s :
  lang (AtLeast n (Class p)) s <-> (n <= length s)%nat /\ all_chars p s = true.
Proof.
  unfold AtLeast; split.
  - intros H; apply lang_cat_inv in H.
    destruct H as (s1 & s2 & -> & H1 & H2).
    apply lang_rep_class in H1; apply lang_star_class in H2.
    rewrite length_append, all_chars_append.
    destruct H1 as [<- ->]; rewrite H2; split; [lia | reflexivity].
  - intros [L Hall].
    destruct (substring_prefix n s) as [rest Hrest].
    assert (Hlen : length (substring 0 n s) = n).
    { clear Hrest Hall; revert s L; induction n as [|n IH]; intros [|c s] L;
        simpl in *; auto; try lia.
      f_equal; apply IH; lia. }
    rewrite Hrest in Hall |- *; rewrite all_chars_append in Hall.
    apply andb_true_iff in Hall; destruct Hall.
    constructor; [apply lang_rep_class | apply lang_star_class]; auto.
Qed.

End RegexFacts.

(** ** [re.search] on patterns of fixed width *)

Section SearchFacts.

Import Re.
Local Open Scope string_scope.

Variables (r : regex) (w : nat).
Hypothesis Hwidth : fixed_width r w.

Lemma search_fixed_unfold s :
  search_fixed r w s =
  if fullmatch r (substring 0 w s) then Some (substring 0 w s)
  else match s with
       | "" => None
       | String _ rest => search_fixed r w rest
       end.
Proof. destruct s; reflexivity. Qed.

Lemma window_at_start m post :
  lang r m -> fullmatch r (substring 0 w (m ++ post)) = true.
Proof.
  intros Hm; rewrite <- (Hwidth m Hm), substring_append.
  now apply fullmatch_lang.
Qed.

Lemma search_fixed_none s :
  search_fixed r w s = None -> forall pre m post, ~ occurs r s pre m post.
Proof.
  intros Hnone pre; revert s Hnone.
  induction pre as [|c pre IH]; intros s Hnone m post [-> Hm];
    rewrite search_fixed_unfold in Hnone.
  - simpl in Hnone; rewrite (window_at_start m post Hm) in Hnone.
    discriminate.
  - destruct (fullmatch r _); [discriminate|]; simpl in Hnone.
    apply (IH _ Hnone m post); split; auto.
Qed.

Lemma search_fixed_some s m :
  search_fixed r w s = Some m -> exists pre post, leftmost r s pre m post.
Proof.
  revert m; induction s as [|c s IH]; intros m Hsome;
    rewrite search_fixed_unfold in Hsome;
    destruct (fullmatch r (substring 0 w _)) eqn:Hhead.
  - injection Hsome as <-.
    destruct (substring_prefix w "") as [post Hpost].
    exists "", post; split; [split|intros; simpl; lia].
    + exact Hpost.
    + now apply fullmatch_lang.
  - discriminate.
  - injection Hsome as <-.
    destruct (substring_prefix w (String c s)) as [post Hpost].
    exists "", post; split; [split|intros; simpl; lia].
    + exact Hpost.
    + now apply fullmatch_lang.
  - destruct (IH _ Hsome) as (pre & post & [Hs Hm] & Hleft).
    exists (String c pre), post; split; [split|]; auto.
    + simpl; congruence.
    + intros [|c' pre'] m' post' [Hs' Hm']; simpl in Hs'.
      * rewrite Hs', (window_at_start m' post' Hm') in Hhead; discriminate.
      * injection Hs' as -> Hs'; simpl.
        apply le_n_S, (Hleft pre' m' post'); split; auto.
Qed.

Lemma leftmost_search s pre m post :
  leftmost r s pre m post -> search_fixed r w s = Some m.
Proof.
  intros [Hocc Hleft].
  destruct (search_fixed r w s) as [m0|] eqn:Hsearch.
  - destruct (search_fixed_some _ _ Hsearch) as (pre0 & post0 & Hocc0 & Hleft0).
    pose proof (Hleft _ _ _ Hocc0) as L1.
    pose proof (Hleft0 _ _ _ Hocc) as L2.
    destruct Hocc as [Hs Hm], Hocc0 as [Hs0 Hm0].
    rewrite Hs in Hs0.
    apply append_inj_length in Hs0; [|lia].
    destruct Hs0 as [_ Hs0].
    apply append_inj_length in Hs0;
      [|rewrite (Hwidth _ Hm), (Hwidth _ Hm0); reflexivity].
    destruct Hs0 as [-> _]; reflexivity.
  - exfalso; exact (search_fixed_none _ Hsearch _ _ _ Hocc).
Qed.

Lemma no_occurrence_search s :
  (forall pre m post, ~ occurs r s pre m post) -> search_fixed r w s = None.
Proof.
  intros Hno; destruct (search_fixed r w s) as [m|] eqn:Hsearch; auto.
  destruct (search_fixed_some _ _ Hsearch) as (pre & post & Hocc & _).
  exfalso; exact (Hno _ _ _ Hocc).
Qed.

End SearchFacts.

(** ** [str.split] *)

Section SplitFacts.

Local Open Scope string_scope.

Lemma split_from_nonempty s :
  forall cur, Forall (fun t => t <> "") (split_from cur s).
Proof.
  induction s as [|c s IH]; intros cur; simpl.
  - destruct (truthy cur) eqn:Hcur; constructor; auto.
    now apply truthy_nonempty.
  - destruct (is_space c); auto.
    destruct (truthy cur) eqn:Hcur; auto.
    constructor; auto; now apply truthy_nonempty.
Qed.

Lemma split_nonempty s : Forall (fun t => t <> "") (split s).
Proof. apply split_from_nonempty. Qed.

(** White space between tokens is dropped. *)
Lemma split_from_spaces ws s :
  all_chars is_space ws = true -> split_from "" (ws ++ s) = split_from "" s.
Proof.
  induction ws as [|c ws IH]; simpl; intros H; auto.
  apply andb_true_iff in H; destruct H as [Hc Hws].
  rewrite Hc; simpl; auto.
Qed.

End SplitFacts.

(** ** fix_csv.py: [normalize_row] *)

Section NormalizeRow.

Import FixCsv.

Implicit Types (fields fixed out : list string).

Lemma expected_header_length : List.length EXPECTED_HEADER = 19.
Proof. reflexivity. Qed.

Lemma or_else_empty v : or_else v "" = v.
Proof.
  unfold or_else, truthy; destruct (String.eqb_spec v ""); simpl; congruence.
Qed.

(** What [MANDATE_LIKE_RE.match] accepts: six digits or more, then three
    dash-separated groups of four, two and two digits, and possibly one
    final newline (the [$] anchor). *)
Lemma mandate_like_shape v :
  mandate_like v = true <->
  exists id y m d nl,
    v = (id ++ "-" ++ y ++ "-" ++ m ++ "-" ++ d ++ nl)%string
    /\ 6 <= String.length id /\ all_chars is_digit id = true
    /\ String.length y = 4 /\ all_chars is_digit y = true
    /\ String.length m = 2 /\ all_chars is_digit m = true
    /\ String.length d = 2 /\ all_chars is_digit d = true
    /\ (nl = "" \/ nl = String "010" "").
Proof.
  unfold mandate_like, Re.match_anchored, MANDATE_LIKE_RE.
  rewrite or_else_empty, fullmatch_lang; split.
  - intros H.
    apply lang_cat_inv in H; destruct H as (body & nl & -> & H & Hnl).
    apply lang_cat_inv in H; destruct H as (id & r1 & -> & Hid & H).
    apply lang_cat_inv in H; destruct H as (d1 & r2 & -> & D1 & H).
    apply lang_cat_inv in H; destruct H as (y & r3 & -> & Hy & H).
    apply lang_cat_inv in H; destruct H as (d2 & r4 & -> & D2 & H).
    apply lang_cat_inv in H; destruct H as (m & r5 & -> & Hm & H).
    apply lang_cat_inv in H; destruct H as (d3 & d & -> & D3 & Hd).
    apply lang_lit in D1, D2, D3; subst.
    apply lang_atleast_class in Hid.
    apply lang_rep_class in Hy, Hm, Hd.
    exists id, y, m, d, nl; rewrite !append_assoc; simpl.
    repeat split; try tauto.
    inversion Hnl as [| | |? ? ? Hl|? ? ? He| |]; subst; [right | left].
    + now apply (lang_lit (String "010" "")).
    + now inversion He.
  - intros (id & y & m & d & nl & -> & Lid & Did & Ly & Dy & Lm & Dm
            & Ld & Dd & Hnl).
    replace (id ++ "-" ++ y ++ "-" ++ m ++ "-" ++ d ++ nl)%string
      with ((id ++ "-" ++ y ++ "-" ++ m ++ "-" ++ d) ++ nl)%string
      by (now rewrite !append_assoc).
    constructor.
    + repeat constructor;
        try (apply lang_rep_class; split; assumption);
        try (apply (lang_lit "-"); reflexivity).
      apply lang_atleast_class; split; assumption.
    + destruct Hnl as [-> | ->];
        [apply Re.lang_alt_r; constructor
        |apply Re.lang_alt_l; now apply (lang_lit (String "010" ""))].
Qed.

(** The twelve-field row of the specification. *)
Example normalize_row_twelve_fields :
  normalize_row
    ["A"; "B"; "C"; "D"; "E"; "F"; "G"; "H"; "I"; "X";
     "99999999-2024-01-01"; "Y"]
  = Ok ["A"; "B"; "C"; "D"; "E"; "F"; "G"; "H"; "I"; ""; ""; ""; "";
        "99999999-2024-01-01"; ""; "99999999-2024-01-01"; "Y"; ""; ""].
Proof. reflexivity. Qed.

(** The loop over [range(min(9, len(fields)))]. *)
Lemma copy_loop fields fixed n :
  n <= List.length fields -> n <= List.length fixed ->
  exists out,
    for_range n (fun i fixed => v <- getitem fields i ;; setitem fixed i v)
      fixed = Ok out
    /\ List.length out = List.length fixed
    /\ (forall i, i < n -> nth_error out i = nth_error fields i)
    /\ (forall i, n <= i -> nth_error out i = nth_error fixed i).
Proof.
  induction n as [|n IH]; intros Hfields Hfixed.
  - exists fixed; repeat split; auto; intros; lia.
  - destruct IH as (out & Hrun & Hlen & Hlow & Hhigh); try lia.
    destruct (nth_error fields n) as [v|] eqn:Hv.
    2:{ apply nth_error_None in Hv; lia. }
    exists (update out n v); rewrite for_range_S, Hrun; simpl.
    rewrite (getitem_ok _ _ _ Hv); simpl.
    rewrite setitem_ok by lia.
    repeat split.
    + rewrite update_length; exact Hlen.
    + intros i Hi; destruct (Nat.eq_dec i n) as [->|Hne].
      * rewrite nth_error_update_eq by lia; auto.
      * rewrite nth_error_update_neq by auto; apply Hlow; lia.
    + intros i Hi; rewrite nth_error_update_neq by lia; apply Hhigh; lia.
Qed.

Lemma nth_error_lead fields i :
  nth_error fields i = Some (RowSpec.lead fields i)
  \/ (List.length fields <= i /\ RowSpec.lead fields i = "").
Proof.
  unfold RowSpec.lead.
  destruct (Nat.lt_ge_cases i (List.length fields)) as [Hlt|Hge].
  - left; now apply nth_error_nth'.
  - right; split; [exact Hge | now apply nth_overflow].
Qed.

(** After the copy loop the row holds the leading values and blanks. *)
Lemma copy_loop_result fields :
  for_range (Nat.min 9 (List.length fields))
    (fun i fixed => v <- getitem fields i ;; setitem fixed i v)
    (repeat "" (List.length EXPECTED_HEADER))
  = Ok (map (RowSpec.lead fields) (seq 0 9) ++ repeat "" 10).
Proof.
  destruct (copy_loop fields (repeat "" (List.length EXPECTED_HEADER))
              (Nat.min 9 (List.length fields)))
    as (out & Hrun & Hlen & Hlow & Hhigh);
    [lia | rewrite repeat_length, expected_header_length; lia |].
  rewrite Hrun; f_equal; apply nth_error_ext; intros i.
  assert (Hi : nth_error out i =
               if i <? 9 then Some (RowSpec.lead fields i)
               else nth_error (repeat "" 19) i).
  { destruct (Nat.ltb_spec i 9) as [Hlt|Hge].
    - destruct (nth_error_lead fields i) as [Hin|[Hout Hblank]].
      + assert (i < List.length fields) by (apply nth_error_Some; congruence).
        rewrite <- Hin; apply Hlow; lia.
      + rewrite Hhigh by lia; rewrite Hblank.
        simpl; do 9 (destruct i as [|i]; [reflexivity|]); lia.
    - apply Hhigh; lia. }
  rewrite Hi; do 19 (destruct i as [|i]; [reflexivity|]).
  simpl; now destruct i.
Qed.

Lemma find_enumerate (p : string -> bool) start fields :
  option_map snd (find (fun iv => p (snd iv)) (enumerate_from start fields))
  = find p fields.
Proof.
  revert start; induction fields as [|h t IH]; intros start; simpl; auto.
  destruct (p h); simpl; auto.
Qed.

(** The index found by the generator is the index of [RowSpec.anchor]. *)
Lemma anchor_lookup fields :
  match next_index mandate_like fields with
  | Some idx => getitem fields idx = Ok (RowSpec.anchor fields)
  | None => RowSpec.anchor fields = ""
  end.
Proof.
  unfold RowSpec.anchor, next_index, enumerate.
  rewrite <- (find_enumerate mandate_like 0 fields).
  destruct (find _ (enumerate_from 0 fields)) as [[i v]|] eqn:Hf; simpl; auto.
  apply find_some in Hf; destruct Hf as [Hin _].
  apply enumerate_from_nth in Hin; simpl in Hin.
  rewrite Nat.sub_0_r in Hin; apply getitem_ok; tauto.
Qed.

(** The three shapes of [tail], with the values its last indices name. *)
Lemma tail_cases fields :
  (indices_where truthy fields = [] /\ filter truthy fields = [])
  \/ (exists i a, indices_where truthy fields = [i]
                  /\ filter truthy fields = [a]
                  /\ nth_error fields i = Some a)
  \/ (exists t v i j a b,
         indices_where truthy fields = t ++ [i; j]
         /\ filter truthy fields = v ++ [a; b]
         /\ nth_error fields i = Some a /\ nth_error fields j = Some b).
Proof.
  pose proof (indices_where_filter truthy fields) as H.
  destruct (rev (filter truthy fields)) as [|b [|a r]] eqn:Hrev;
    apply (f_equal (@rev string)) in Hrev; rewrite rev_involutive in Hrev;
    simpl in Hrev; rewrite Hrev in H |- *.
  - left; inversion H; auto.
  - right; left; inversion H as [|i ? t ? Hi Ht]; subst.
    inversion Ht; subst; eauto.
  - right; right; rewrite <- app_assoc in H |- *; simpl in H |- *.
    apply Forall2_app_inv_r in H.
    destruct H as (t & t2 & _ & H2 & ->).
    inversion H2 as [|i ? t3 ? Hi H3]; subst.
    inversion H3 as [|j ? t4 ? Hj H4]; subst.
    inversion H4; subst.
    exists t, (rev r), i, j, a, b; auto.
Qed.

Lemma getitem_back_snoc2 (t : list nat) i j :
  getitem_back (t ++ [i; j]) 2 = Ok i /\ getitem_back (t ++ [i; j]) 1 = Ok j
  /\ (2 <=? List.length (t ++ [i; j])) = true.
Proof.
  assert (Hlen : List.length (t ++ [i; j]) = List.length t + 2)
    by (rewrite length_app; reflexivity).
  repeat split.
  - apply getitem_back_ok; [lia|].
    rewrite Hlen, nth_error_app2 by lia.
    replace (List.length t + 2 - 2 - List.length t) with 0 by lia; reflexivity.
  - apply getitem_back_ok; [lia|].
    rewrite Hlen, nth_error_app2 by lia.
    replace (List.length t + 2 - 1 - List.length t) with 1 by lia; reflexivity.
  - apply Nat.leb_le; lia.
Qed.

(** [normalize_row] on a row that is not 19 long computes the row of
    [RowSpec], and does not raise. *)
Lemma normalize_row_repair fields :
  List.length fields <> 19 ->
  normalize_row fields = Ok (RowSpec.normalized fields).
Proof.
  intros Hlen; unfold normalize_row.
  destruct (Nat.eqb_spec (List.length fields) (List.length EXPECTED_HEADER))
    as [E|_]; [rewrite expected_header_length in E; contradiction|].
  rewrite copy_loop_result; cbn [bind].
  assert (Hanchor :
    match next_index mandate_like fields with
    | Some idx =>
        v <- getitem fields idx ;;
        setitem (map (RowSpec.lead fields) (seq 0 9) ++ repeat "" 10) 13 v
    | None => Ok (map (RowSpec.lead fields) (seq 0 9) ++ repeat "" 10)
    end
    = Ok (map (RowSpec.lead fields) (seq 0 9)
          ++ ["" ; ""; ""; ""; RowSpec.anchor fields; ""; ""; ""; ""; ""])).
  { pose proof (anchor_lookup fields) as Ha.
    destruct (next_index mandate_like fields) as [idx|].
    - rewrite Ha; reflexivity.
    - rewrite Ha; reflexivity. }
  rewrite Hanchor; cbn [bind]; clear Hanchor.
  unfold RowSpec.normalized, RowSpec.salvage.
  destruct (tail_cases fields)
    as [[Ht Hv] | [(i & a & Ht & Hv & Hi)
                  | (t & v & i & j & a & b & Ht & Hv & Hi & Hj)]];
    rewrite Ht, Hv.
  - reflexivity.
  - simpl; rewrite (getitem_ok _ _ _ Hi); reflexivity.
  - destruct (getitem_back_snoc2 t i j) as (G2 & G1 & L).
    rewrite L, G2, G1; cbn [bind].
    rewrite (getitem_ok _ _ _ Hi), (getitem_ok _ _ _ Hj); cbn [bind].
    rewrite rev_app_distr; simpl.
    destruct t; reflexivity.
Qed.

(** C1. Whatever the row, of any length, [normalize_row] returns (it does
    not raise) and the row it returns has exactly 19 fields. *)
Theorem normalize_row_returns_19_fields fields :
  exists out, normalize_row fields = Ok out /\ List.length out = 19.
Proof.
  destruct (Nat.eq_dec (List.length fields) 19) as [E|N].
  - exists fields; split; [|exact E].
    unfold normalize_row; rewrite expected_header_length, E; reflexivity.
  - exists (RowSpec.normalized fields); split; [|reflexivity].
    now apply normalize_row_repair.
Qed.

(** C2. A row that already has 19 fields is returned as it is. *)
Theorem normalize_row_identity_on_19 fields :
  List.length fields = 19 -> normalize_row fields = Ok fields.
Proof.
  intros E; unfold normalize_row.
  rewrite expected_header_length, E; reflexivity.
Qed.

Lemma normalize_row_identity_on_19_witness :
  List.length EXPECTED_HEADER = 19
  /\ normalize_row EXPECTED_HEADER = Ok EXPECTED_HEADER.
Proof.
  split; [reflexivity|].
  apply (normalize_row_identity_on_19 EXPECTED_HEADER); reflexivity.
Defined.

(** C3, as stated, fails on a row of 19 fields: here the only mandate-like
    token sits in slot 12 (MANDATE REFERENCE); the row is returned
    unchanged and slot 13 stays empty. *)
Lemma mandate_token_not_moved_in_19_row :
  Forall (fun v => mandate_like v = false) (repeat "" 12)
  /\ mandate_like "123456-2024-03-01" = true
  /\ exists out,
       normalize_row (repeat "" 12 ++ "123456-2024-03-01" :: repeat "" 6)
       = Ok out
       /\ nth_error out 13 <> Some "123456-2024-03-01".
Proof.
  split; [|split].
  - repeat constructor.
  - reflexivity.
  - eexists; split; [reflexivity|]; simpl; discriminate.
Qed.

(** C3, amended. In a row whose length is not 19, the first mandate-like
    token, wherever it stands, is in slot 13 of the result. *)
Theorem mandate_token_relocated_to_13 pre tok post :
  List.length (pre ++ tok :: post) <> 19 ->
  Forall (fun v => mandate_like v = false) pre ->
  mandate_like tok = true ->
  exists out, normalize_row (pre ++ tok :: post) = Ok out
              /\ nth_error out 13 = Some tok.
Proof.
  intros Hlen Hpre Htok.
  exists (RowSpec.normalized (pre ++ tok :: post)); split.
  - now apply normalize_row_repair.
  - simpl; unfold RowSpec.anchor; f_equal.
    clear Hlen; induction Hpre as [|h t Hh _ IH]; simpl.
    + now rewrite Htok.
    + now rewrite Hh.
Qed.

Lemma mandate_token_relocated_to_13_witness :
  List.length
    (["A"; "B"; "C"; "D"; "E"; "F"; "G"; "H"; "I"; "X"]
     ++ "99999999-2024-01-01" :: ["Y"]) <> 19
  /\ Forall (fun v => mandate_like v = false)
       ["A"; "B"; "C"; "D"; "E"; "F"; "G"; "H"; "I"; "X"]
  /\ mandate_like "99999999-2024-01-01" = true
  /\ exists out,
       normalize_row
         (["A"; "B"; "C"; "D"; "E"; "F"; "G"; "H"; "I"; "X"]
          ++ "99999999-2024-01-01" :: ["Y"]) = Ok out
       /\ nth_error out 13 = Some "99999999-2024-01-01".
Proof.
  assert (H1 : List.length
                 (["A"; "B"; "C"; "D"; "E"; "F"; "G"; "H"; "I"; "X"]
                  ++ "99999999-2024-01-01" :: ["Y"]) <> 19)
    by (simpl; discriminate).
  assert (H2 : Forall (fun v => mandate_like v = false)
                 ["A"; "B"; "C"; "D"; "E"; "F"; "G"; "H"; "I"; "X"])
    by (repeat constructor).
  assert (H3 : mandate_like "99999999-2024-01-01" = true) by reflexivity.
  repeat split; auto.
  exact (mandate_token_relocated_to_13 _ _ _ H1 H2 H3).
Defined.

(** C5. In a row whose length is not 19, slots 15 and 16 hold the last two
    non-empty values in their original order; a single non-empty value
    goes to slot 15 alone; without any, both slots are empty. *)
Theorem tail_salvage_slots_15_16 fields :
  List.length fields <> 19 ->
  exists out,
    normalize_row fields = Ok out
    /\ (forall before a b,
           filter truthy fields = before ++ [a; b] ->
           nth_error out 15 = Some a /\ nth_error out 16 = Some b)
    /\ (forall a,
           filter truthy fields = [a] ->
           nth_error out 15 = Some a /\ nth_error out 16 = Some "")
    /\ (filter truthy fields = [] ->
        nth_error out 15 = Some "" /\ nth_error out 16 = Some "").
Proof.
  intros Hlen; exists (RowSpec.normalized fields).
  split; [now apply normalize_row_repair|].
  unfold RowSpec.normalized, RowSpec.salvage; simpl.
  repeat split; intros; rewrite H; try rewrite rev_app_distr; reflexivity.
Qed.

Lemma tail_salvage_slots_15_16_witness :
  List.length ["REJECTED"; ""; "KC2-BL001"; ""; "User in the Blacklist"; ""]
  <> 19
  /\ exists out,
       normalize_row
         ["REJECTED"; ""; "KC2-BL001"; ""; "User in the Blacklist"; ""]
       = Ok out
       /\ nth_error out 15 = Some "KC2-BL001"
       /\ nth_error out 16 = Some "User in the Blacklist".
Proof.
  assert (H : List.length
                ["REJECTED"; ""; "KC2-BL001"; ""; "User in the Blacklist"; ""]
              <> 19) by (simpl; discriminate).
  split; [exact H|].
  destruct (tail_salvage_slots_15_16 _ H) as (out & Hrun & Hmany & _).
  exists out; split; [exact Hrun|].
  exact (Hmany ["REJECTED"] "KC2-BL001" "User in the Blacklist" eq_refl).
Defined.

(** C10. In a row whose length is not 19, slots 0..8 are the first
    [min(9, len(fields))] input values followed by blanks, and slots 9, 10,
    11, 12, 14, 17 and 18 are blank. *)
Theorem normalize_row_frame fields :
  List.length fields <> 19 ->
  exists out,
    normalize_row fields = Ok out
    /\ (forall i, i < Nat.min 9 (List.length fields) ->
                  nth_error out i = nth_error fields i)
    /\ (forall i, Nat.min 9 (List.length fields) <= i < 9 ->
                  nth_error out i = Some "")
    /\ (forall i, In i [9; 10; 11; 12; 14; 17; 18] ->
                  nth_error out i = Some "").
Proof.
  intros Hlen; exists (RowSpec.normalized fields).
  split; [now apply normalize_row_repair|].
  assert (Hlead : forall i, i < 9 ->
            nth_error (RowSpec.normalized fields) i
            = Some (RowSpec.lead fields i)).
  { intros i Hi; do 9 (destruct i as [|i]; [reflexivity|]); lia. }
  repeat split.
  - intros i Hi; rewrite Hlead by lia.
    destruct (nth_error_lead fields i) as [Hin|[Hout _]]; [now symmetry | lia].
  - intros i Hi; rewrite Hlead by lia.
    destruct (nth_error_lead fields i) as [Hin|[_ Hblank]].
    + assert (i < List.length fields) by (apply nth_error_Some; congruence).
      lia.
    + now rewrite Hblank.
  - simpl; intros i Hi.
    repeat (destruct Hi as [<-|Hi]; [reflexivity|]); contradiction.
Qed.

Lemma normalize_row_frame_witness :
  List.length ["REJECTED"; "E2E-1"; "PPS"; "54.90"] <> 19
  /\ exists out,
       normalize_row ["REJECTED"; "E2E-1"; "PPS"; "54.90"] = Ok out
       /\ nth_error out 3 = Some "54.90"
       /\ nth_error out 4 = Some ""
       /\ nth_error out 14 = Some "".
Proof.
  assert (H : List.length ["REJECTED"; "E2E-1"; "PPS"; "54.90"] <> 19)
    by (simpl; discriminate).
  split; [exact H|].
  destruct (normalize_row_frame _ H) as (out & Hrun & Hlow & Hpad & Hblank).
  exists out; split; [exact Hrun|]; repeat split.
  - apply (Hlow 3); simpl; lia.
  - apply (Hpad 4); simpl; lia.
  - apply (Hblank 14); simpl; tauto.
Defined.

End NormalizeRow.

(** ** pdf2csv.py *)

Section ParseRecords.

Import Re Pdf2csv.
Local Open Scope string_scope.

Implicit Types (line filename : string) (lines : list string).

Lemma date_re_width : fixed_width DATE_RE 8.
Proof.
  intros m H; apply lang_cat_inv in H.
  destruct H as (s1 & s2 & -> & H1 & H2).
  apply lang_lit in H1; apply lang_rep_class in H2.
  destruct H2 as [L _]; subst; simpl; now rewrite L.
Qed.

Lemma two_digit_new_shape m :
  lang TWO_DIGIT_NEW_RE m <->
  exists two, m = two ++ "new" /\ length two = 2
              /\ all_chars is_digit two = true.
Proof.
  unfold TWO_DIGIT_NEW_RE; split.
  - intros H; apply lang_cat_inv in H.
    destruct H as (s1 & s2 & -> & H1 & H2).
    apply lang_rep_class in H1; apply lang_lit in H2; subst; eauto.
  - intros (two & -> & L & D); constructor;
      [now apply lang_rep_class | now apply lang_lit].
Qed.

Lemma two_digit_new_width : fixed_width TWO_DIGIT_NEW_RE 5.
Proof.
  intros m H; apply two_digit_new_shape in H.
  destruct H as (two & -> & L & _); rewrite length_append, L; reflexivity.
Qed.

(** What [find_date_yyyymmdd_in_filename] can return: nothing, or eight
    digits that begin with 20. *)
Lemma find_date_shape filename :
  find_date_yyyymmdd_in_filename filename = ""
  \/ fullmatch (Rep 8 digit) (find_date_yyyymmdd_in_filename filename) = true.
Proof.
  unfold find_date_yyyymmdd_in_filename.
  destruct (search_fixed DATE_RE 8 filename) as [m|] eqn:Hs; auto.
  right; apply (search_fixed_some _ _ date_re_width) in Hs.
  destruct Hs as (pre & post & [_ Hm] & _).
  apply fullmatch_lang, lang_rep_class.
  apply lang_cat_inv in Hm; destruct Hm as (s1 & s2 & -> & H1 & H2).
  apply lang_lit in H1; apply lang_rep_class in H2; destruct H2 as [L D].
  subst; simpl; rewrite L, D; auto.
Qed.

Lemma find_date_absent filename :
  (forall pre m post, ~ occurs DATE_RE filename pre m post) ->
  find_date_yyyymmdd_in_filename filename = "".
Proof.
  intros Hno; unfold find_date_yyyymmdd_in_filename.
  now rewrite (no_occurrence_search _ _ date_re_width _ Hno).
Qed.

Lemma prefix_append p s :
  String.prefix p s = true -> exists rest, s = p ++ rest.
Proof.
  intros H; apply prefix_correct in H.
  destruct (substring_prefix (length p) s) as [rest Hrest].
  exists rest; congruence.
Qed.

(** [detect_amount_from_filename] never raises: [d[k]] is guarded by
    [k in d]. *)
Lemma detect_amount_total filename :
  exists amount, detect_amount_from_filename filename = Ok amount.
Proof.
  unfold detect_amount_from_filename.
  destruct (first_prefix_amount _ _); eauto.
  destruct (search_fixed _ _ _); eauto.
  unfold dict_contains, dict_getitem.
  destruct (lookup _ _); eauto.
Qed.

(** The caption line, read as data, is a line without a numeric customer
    id. *)
Lemma header_tokens line :
  match_anchored HEADER_RE line = true ->
  split line = ["Dateiname"; "Name"; "Kundennummer"; "Fehler"].
Proof.
  unfold match_anchored, HEADER_RE; intros H; apply fullmatch_lang in H.
  apply lang_cat_inv in H; destruct H as (body & nl & -> & H & Hnl).
  apply lang_cat_inv in H; destruct H as (t1 & r1 & -> & T1 & H).
  apply lang_cat_inv in H; destruct H as (w1 & r2 & -> & W1 & H).
  apply lang_cat_inv in H; destruct H as (t2 & r3 & -> & T2 & H).
  apply lang_cat_inv in H; destruct H as (w2 & r4 & -> & W2 & H).
  apply lang_cat_inv in H; destruct H as (t3 & r5 & -> & T3 & H).
  apply lang_cat_inv in H; destruct H as (w3 & t4 & -> & W3 & T4).
  apply lang_lit in T1, T2, T3, T4; subst.
  apply lang_plus_class in W1, W2, W3.
  destruct W1 as [N1 W1], W2 as [N2 W2], W3 as [N3 W3].
  assert (Hnl' : nl = "" \/ nl = String "010" "").
  { inversion Hnl as [| | |? ? ? Hl|? ? ? He| |]; subst; [right | left].
    - now apply (lang_lit (String "010" "")).
    - now inversion He. }
  clear Hnl.
  destruct w1 as [|c1 w1]; [congruence|].
  destruct w2 as [|c2 w2]; [congruence|].
  destruct w3 as [|c3 w3]; [congruence|].
  simpl in W1, W2, W3.
  apply andb_true_iff in W1, W2, W3.
  destruct W1 as [C1 W1], W2 as [C2 W2], W3 as [C3 W3].
  rewrite !append_assoc; unfold split; simpl.
  rewrite C1; simpl; rewrite (split_from_spaces w1) by exact W1.
  simpl; rewrite C2; simpl; rewrite (split_from_spaces w2) by exact W2.
  simpl; rewrite C3; simpl; rewrite (split_from_spaces w3) by exact W3.
  destruct Hnl' as [-> | ->]; reflexivity.
Qed.

Lemma header_is_skipped line :
  match_anchored HEADER_RE line = true -> parse_line line = Ok None.
Proof.
  intros H; unfold parse_line; rewrite (header_tokens _ H); reflexivity.
Qed.

(** Skipping the caption changes nothing: read as data it is dropped. *)
Lemma parse_records_from_lines_loop lines :
  parse_records_from_lines lines = parse_lines lines [].
Proof.
  destruct lines as [|first rest]; [reflexivity|].
  unfold parse_records_from_lines; simpl.
  destruct (match_anchored HEADER_RE first) eqn:Hh; simpl; [|reflexivity].
  rewrite (header_is_skipped _ Hh); reflexivity.
Qed.

Lemma parse_lines_skip line :
  parse_line line = Ok None ->
  forall before after records,
    parse_lines (before ++ line :: after)%list records
    = parse_lines (before ++ after)%list records.
Proof.
  intros Hskip before; induction before as [|b before IH];
    intros after records; simpl.
  - rewrite Hskip; reflexivity.
  - destruct (parse_line b) as [[rec|]|e]; simpl; auto.
Qed.

(** With four tokens or more, none of the three subscripts raises. *)
Lemma line_tokens (parts : list string) :
  4 <= List.length parts ->
  exists filename_token customer_id error_code,
    nth_error parts 0 = Some filename_token
    /\ nth_error parts (List.length parts - 2) = Some customer_id
    /\ getitem parts 0 = Ok filename_token
    /\ getitem_back parts 1 = Ok error_code
    /\ getitem_back parts 2 = Ok customer_id.
Proof.
  intros Hlen.
  destruct (nth_error parts 0) as [f|] eqn:Hf;
    [|apply nth_error_None in Hf; lia].
  destruct (nth_error parts (List.length parts - 2)) as [c|] eqn:Hc;
    [|apply nth_error_None in Hc; lia].
  destruct (nth_error parts (List.length parts - 1)) as [e|] eqn:He;
    [|apply nth_error_None in He; lia].
  exists f, c, e; repeat split; auto.
  - now apply getitem_ok.
  - apply getitem_back_ok; [lia | exact He].
  - apply getitem_back_ok; [lia | exact Hc].
Qed.

Lemma parse_line_short line :
  List.length (split line) < 4 -> parse_line line = Ok None.
Proof.
  intros H; unfold parse_line.
  destruct (Nat.ltb_spec (List.length (split line)) 4); [reflexivity | lia].
Qed.

Lemma parse_line_non_numeric line customer_id :
  nth_error (split line) (List.length (split line) - 2) = Some customer_id ->
  all_chars is_digit customer_id = false ->
  parse_line line = Ok None.
Proof.
  intros Hcid Hdigits; unfold parse_line.
  destruct (Nat.ltb_spec (List.length (split line)) 4) as [|Hlen];
    [reflexivity|].
  destruct (line_tokens _ Hlen) as (f & c & e & _ & Hc & -> & -> & ->).
  cbn [bind]; rewrite Hcid in Hc; injection Hc as <-.
  destruct (fullmatch (Plus digit) customer_id) eqn:Hm; [|reflexivity].
  apply fullmatch_lang, lang_plus_class in Hm; destruct Hm as [_ Hm].
  unfold digit in Hm; congruence.
Qed.

Lemma parse_line_accepted line filename_token customer_id mandate_date :
  4 <= List.length (split line) ->
  nth_error (split line) 0 = Some filename_token ->
  nth_error (split line) (List.length (split line) - 2) = Some customer_id ->
  all_chars is_digit customer_id = true ->
  yyyymmdd_to_first_of_month (find_date_yyyymmdd_in_filename filename_token)
  = Ok mandate_date ->
  exists amount customer_name error_code,
    parse_line line =
    Ok (Some (record amount customer_name customer_id
                (if truthy mandate_date
                 then customer_id ++ "-" ++ mandate_date
                 else customer_id)
                error_code)).
Proof.
  intros Hlen Hf Hcid Hdigits Hdate; unfold parse_line.
  destruct (Nat.ltb_spec (List.length (split line)) 4); [lia|].
  destruct (line_tokens _ Hlen) as (f & c & e & Hf' & Hc & -> & -> & ->).
  rewrite Hf in Hf'; injection Hf' as <-.
  rewrite Hcid in Hc; injection Hc as <-.
  cbn [bind].
  assert (Hm : fullmatch (Plus digit) customer_id = true).
  { apply fullmatch_lang, lang_plus_class; split; [|exact Hdigits].
    pose proof (split_nonempty line) as Hne.
    rewrite Forall_forall in Hne; apply Hne.
    eapply nth_error_In; exact Hcid. }
  rewrite Hm, Hdate; cbn [negb bind].
  destruct (detect_amount_total filename_token) as [amount ->]; cbn [bind].
  eauto.
Qed.

Lemma parse_single_line line rec :
  parse_line line = Ok (Some rec) ->
  parse_records_from_lines [line] = Ok [rec].
Proof.
  intros H; rewrite parse_records_from_lines_loop; simpl; rewrite H.
  reflexivity.
Qed.

Lemma dateutil_parse_exn timestr e :
  Dateutil.parse timestr = Raise e -> e = ParserError.
Proof.
  unfold Dateutil.parse.
  destruct (fullmatch _ _); [|congruence].
  destruct (Dateutil.valid_date _ _ _); congruence.
Qed.

(** Where the extractor can raise: only in [dateutil], on a date found in
    the file name. *)
Lemma parse_line_raises line e :
  parse_line line = Raise e ->
  e = ParserError
  /\ exists filename_token,
       nth_error (split line) 0 = Some filename_token
       /\ Dateutil.parse (find_date_yyyymmdd_in_filename filename_token)
          = Raise ParserError.
Proof.
  unfold parse_line.
  destruct (Nat.ltb_spec (List.length (split line)) 4) as [|Hlen];
    [discriminate|].
  destruct (line_tokens _ Hlen) as (f & c & err & Hf & _ & -> & -> & ->).
  cbn [bind].
  destruct (fullmatch (Plus digit) c); cbn [negb]; [|discriminate].
  unfold yyyymmdd_to_first_of_month.
  destruct (truthy (find_date_yyyymmdd_in_filename f)); cbn [negb bind].
  - destruct (Dateutil.parse _) as [dt|e'] eqn:Hparse; cbn [bind].
    + destruct (detect_amount_total f) as [amount ->]; discriminate.
    + intros [= <-]; pose proof (dateutil_parse_exn _ _ Hparse); subst e'.
      eauto.
  - destruct (detect_amount_total f) as [amount ->]; discriminate.
Qed.

(** An error code that is not a key of the table has no reason. *)
Lemma unknown_error_code_reason error_code :
  lookup ERROR_REASON_MAP error_code = None ->
  dict_get ERROR_REASON_MAP error_code "" = "".
Proof. intros H; unfold dict_get; now rewrite H. Qed.

(** C4 fails on the code.  A file name that carries "20" and six more
    digits which are not a calendar date (here 31 September) is handed to
    [dateutil.parser.parse], whose error leaves [parse_records_from_lines]
    uncaught: no record is returned, not even for the other lines. *)
Theorem invalid_filename_date_raises :
  parse_records_from_lines
    [ "PPS_DB_VPLUS1new_20240301.pdf Jane Doe 123456 KC2-BL001";
      "PPS_DB_VPLUS1new_20240931.pdf John Roe 654321 KC2-BL001" ]
  = Raise ParserError.
Proof. vm_compute; reflexivity. Qed.

(** C6. The sample line of the specification yields one record with the
    six stated values. *)
Theorem sample_line_record :
  exists rec,
    parse_records_from_lines
      [ "PPS_DB_VPLUS1new_20240301.pdf Jane Doe 123456 KC2-BL001" ]
    = Ok [rec]
    /\ lookup rec "CUSTOMER NAME" = Some "Jane Doe"
    /\ lookup rec "CUSTOMER ID" = Some "123456"
    /\ lookup rec "ERROR CODE" = Some "KC2-BL001"
    /\ lookup rec "ERROR REASON" = Some "User in the Blacklist"
    /\ lookup rec "AMOUNT" = Some "54.90"
    /\ lookup rec "TRANSACTION INFORMATION" = Some "123456-2024-03-01".
Proof.
  eexists; split; [vm_compute; reflexivity|].
  repeat split; reflexivity.
Qed.

(** C7, as stated, fails when a pair of digits before "new" that is not in
    the table stands to the left of one that is: [re.search] stops at the
    first, so "15new" is never looked up. *)
Lemma later_two_digit_code_ignored :
  (forall prefix amount,
      In (prefix, amount) PRODUCT_AMOUNT_BY_PREFIX ->
      startswith "ABO_99new_15new.pdf" prefix = false)
  /\ "ABO_99new_15new.pdf" = "ABO_99new_" ++ "15" ++ "new" ++ ".pdf"
  /\ all_chars is_digit "15" = true
  /\ lookup PRODUCT_AMOUNT_BY_TWO_DIGIT "15" = Some "54.90"
  /\ detect_amount_from_filename "ABO_99new_15new.pdf" = Ok ""
  /\ detect_amount_from_filename "ABO_99new_15new.pdf" <> Ok "54.90".
Proof.
  repeat split; try reflexivity; try discriminate.
  intros prefix amount Hin; simpl in Hin.
  destruct Hin as [[= <- <-] | [[= <- <-] | [[= <- <-] | []]]]; reflexivity.
Qed.

Lemma no_prefix_amount filename :
  (forall prefix amount,
      In (prefix, amount) PRODUCT_AMOUNT_BY_PREFIX ->
      startswith filename prefix = false) ->
  first_prefix_amount PRODUCT_AMOUNT_BY_PREFIX filename = None.
Proof.
  intros Hno; simpl.
  rewrite (Hno "PPS_DB_VPLUS1new" "54.90") by (simpl; auto).
  rewrite (Hno "PPS_DB_VPLUS2new" "39.90") by (simpl; auto).
  rewrite (Hno "PPS_DB_VPLUS3" "39.90") by (simpl; auto).
  reflexivity.
Qed.

(** C7, amended.  (a) A file name that starts with a prefix of the table
    gets that prefix's amount, whatever else it contains.  (b) Otherwise,
    the leftmost two digits that stand immediately before "new" are looked
    up in the two-digit table: a key gives its amount, anything else the
    empty string.  (c) Otherwise, without two digits before "new", the
    amount is empty. *)
Theorem detect_amount_priority filename :
  (forall prefix amount,
      In (prefix, amount) PRODUCT_AMOUNT_BY_PREFIX ->
      startswith filename prefix = true ->
      detect_amount_from_filename filename = Ok amount)
  /\ ((forall prefix amount,
          In (prefix, amount) PRODUCT_AMOUNT_BY_PREFIX ->
          startswith filename prefix = false) ->
      (forall pre two post,
          leftmost TWO_DIGIT_NEW_RE filename pre (two ++ "new") post ->
          detect_amount_from_filename filename
          = Ok (match lookup PRODUCT_AMOUNT_BY_TWO_DIGIT two with
                | Some amount => amount
                | None => ""
                end))
      /\ ((forall pre m post,
              ~ occurs TWO_DIGIT_NEW_RE filename pre m post) ->
          detect_amount_from_filename filename = Ok "")).
Proof.
  split; [|intros Hno; split].
  - intros prefix amount Hin Hstart; unfold detect_amount_from_filename.
    unfold startswith in Hstart; simpl in Hin.
    destruct Hin as [[= <- <-] | [[= <- <-] | [[= <- <-] | []]]];
      simpl; unfold startswith.
    + rewrite Hstart; reflexivity.
    + destruct (String.prefix "PPS_DB_VPLUS1new" filename) eqn:H1.
      * apply prefix_append in Hstart; destruct Hstart as [rest ->].
        vm_compute in H1; discriminate.
      * rewrite Hstart; reflexivity.
    + destruct (String.prefix "PPS_DB_VPLUS1new" filename) eqn:H1.
      * apply prefix_append in Hstart; destruct Hstart as [rest ->].
        vm_compute in H1; discriminate.
      * destruct (String.prefix "PPS_DB_VPLUS2new" filename);
          [reflexivity | rewrite Hstart; reflexivity].
  - intros pre two post Hleft; unfold detect_amount_from_filename.
    rewrite (no_prefix_amount _ Hno).
    rewrite (leftmost_search _ _ two_digit_new_width _ _ _ _ Hleft).
    assert (L : length two = 2).
    { destruct Hleft as [[_ Hm] _].
      apply two_digit_new_width in Hm; rewrite length_append in Hm.
      simpl in Hm; lia. }
    rewrite <- L, substring_append.
    unfold dict_contains, dict_getitem.
    destruct (lookup PRODUCT_AMOUNT_BY_TWO_DIGIT two); reflexivity.
  - intros Hnone; unfold detect_amount_from_filename.
    rewrite (no_prefix_amount _ Hno).
    rewrite (no_occurrence_search _ _ two_digit_new_width _ Hnone).
    reflexivity.
Qed.

Lemma detect_amount_priority_witness :
  (forall prefix amount,
      In (prefix, amount) PRODUCT_AMOUNT_BY_PREFIX ->
      startswith "ABO_25new_20240301.pdf" prefix = false)
  /\ (exists pre post,
         leftmost TWO_DIGIT_NEW_RE "ABO_25new_20240301.pdf"
           pre ("25" ++ "new") post)
  /\ detect_amount_from_filename "ABO_25new_20240301.pdf" = Ok "54.90".
Proof.
  assert (H1 : forall prefix amount,
             In (prefix, amount) PRODUCT_AMOUNT_BY_PREFIX ->
             startswith "ABO_25new_20240301.pdf" prefix = false).
  { intros prefix amount Hin; simpl in Hin.
    destruct Hin as [[= <- <-] | [[= <- <-] | [[= <- <-] | []]]];
      reflexivity. }
  assert (H2 : exists pre post,
             leftmost TWO_DIGIT_NEW_RE "ABO_25new_20240301.pdf"
               pre ("25" ++ "new") post)
    by (apply (search_fixed_some _ _ two_digit_new_width); reflexivity).
  split; [exact H1|]; split; [exact H2|].
  destruct H2 as (pre & post & Hleft).
  exact (proj1 (proj2 (detect_amount_priority "ABO_25new_20240301.pdf") H1)
           pre "25" post Hleft).
Defined.

(** C8. A line with fewer than four tokens, and a line whose second-to-last
    token is not made of digits only, adds no record and raises nothing:
    the result is the one obtained without the line. *)
Theorem noise_line_is_skipped line :
  (List.length (split line) < 4
   \/ exists customer_id,
        2 <= List.length (split line)
        /\ nth_error (split line) (List.length (split line) - 2)
           = Some customer_id
        /\ all_chars is_digit customer_id = false) ->
  parse_line line = Ok None
  /\ forall before after,
       parse_records_from_lines (before ++ line :: after)%list
       = parse_records_from_lines (before ++ after)%list.
Proof.
  intros H.
  assert (Hskip : parse_line line = Ok None).
  { destruct H as [Hshort | (cid & _ & Hcid & Hdigits)].
    - now apply parse_line_short.
    - now apply (parse_line_non_numeric line cid). }
  split; [exact Hskip|].
  intros before after; rewrite !parse_records_from_lines_loop.
  now apply parse_lines_skip.
Qed.

Lemma noise_line_is_skipped_witness :
  (exists customer_id,
      nth_error (split "Seite 1 von 3") 2 = Some customer_id
      /\ all_chars is_digit customer_id = false)
  /\ parse_line "Seite 1 von 3" = Ok None
  /\ parse_records_from_lines
       [ "PPS_DB_VPLUS1new_20240301.pdf Jane Doe 123456 KC2-BL001";
         "Seite 1 von 3" ]
     = parse_records_from_lines
         [ "PPS_DB_VPLUS1new_20240301.pdf Jane Doe 123456 KC2-BL001" ].
Proof.
  assert (Hcid : nth_error (split "Seite 1 von 3") 2 = Some "von"
                 /\ all_chars is_digit "von" = false)
    by (split; reflexivity).
  assert (H : List.length (split "Seite 1 von 3") < 4
              \/ exists customer_id,
                   2 <= List.length (split "Seite 1 von 3")
                   /\ nth_error (split "Seite 1 von 3")
                        (List.length (split "Seite 1 von 3") - 2)
                      = Some customer_id
                   /\ all_chars is_digit customer_id = false).
  { right; exists "von"; repeat split; simpl; lia. }
  split; [exists "von"; exact Hcid|].
  destruct (noise_line_is_skipped "Seite 1 von 3" H) as [Hskip Hsame].
  split; [exact Hskip|].
  exact (Hsame
           ["PPS_DB_VPLUS1new_20240301.pdf Jane Doe 123456 KC2-BL001"] []).
Defined.

(** C9. For an accepted line (four tokens or more, numeric customer id):
    if the file name token has no match of [20\d{6}], the derived date is
    empty and TRANSACTION INFORMATION (like DUE DATE, empty) is the bare
    customer id; and whenever a derived date exists, TRANSACTION
    INFORMATION is the customer id, a dash and that date. *)
Theorem transaction_information_composition
    line filename_token customer_id :
  4 <= List.length (split line) ->
  nth_error (split line) 0 = Some filename_token ->
  nth_error (split line) (List.length (split line) - 2) = Some customer_id ->
  all_chars is_digit customer_id = true ->
  ((forall pre m post, ~ occurs DATE_RE filename_token pre m post) ->
   yyyymmdd_to_first_of_month (find_date_yyyymmdd_in_filename filename_token)
   = Ok ""
   /\ exists rec,
        parse_records_from_lines [line] = Ok [rec]
        /\ lookup rec "DUE DATE" = Some ""
        /\ lookup rec "TRANSACTION INFORMATION" = Some customer_id)
  /\ (forall first_of_month,
         yyyymmdd_to_first_of_month
           (find_date_yyyymmdd_in_filename filename_token)
         = Ok first_of_month ->
         first_of_month <> "" ->
         exists rec,
           parse_records_from_lines [line] = Ok [rec]
           /\ lookup rec "TRANSACTION INFORMATION"
              = Some (customer_id ++ "-" ++ first_of_month)).
Proof.
  intros Hlen Hf Hcid Hdigits; split.
  - intros Hno.
    assert (Hdate : yyyymmdd_to_first_of_month
                      (find_date_yyyymmdd_in_filename filename_token)
                    = Ok "")
      by (rewrite (find_date_absent _ Hno); reflexivity).
    split; [exact Hdate|].
    destruct (parse_line_accepted _ _ _ _ Hlen Hf Hcid Hdigits Hdate)
      as (amount & name & err & Hline).
    eexists; split; [exact (parse_single_line _ _ Hline)|].
    split; reflexivity.
  - intros d Hdate Hd.
    destruct (parse_line_accepted _ _ _ _ Hlen Hf Hcid Hdigits Hdate)
      as (amount & name & err & Hline).
    apply truthy_nonempty in Hd; rewrite Hd in Hline.
    eexists; split; [exact (parse_single_line _ _ Hline)|].
    reflexivity.
Qed.

Lemma transaction_information_composition_witness :
  split "Fehlerreport.pdf Jane Doe 123456 KC2-BL001"
  = ["Fehlerreport.pdf"; "Jane"; "Doe"; "123456"; "KC2-BL001"]
  /\ all_chars is_digit "123456" = true
  /\ (forall pre m post, ~ occurs DATE_RE "Fehlerreport.pdf" pre m post)
  /\ exists rec,
       parse_records_from_lines
         ["Fehlerreport.pdf Jane Doe 123456 KC2-BL001"] = Ok [rec]
       /\ lookup rec "DUE DATE" = Some ""
       /\ lookup rec "TRANSACTION INFORMATION" = Some "123456".
Proof.
  assert (H1 : 4 <= List.length
                      (split "Fehlerreport.pdf Jane Doe 123456 KC2-BL001"))
    by (simpl; lia).
  assert (H2 : nth_error (split "Fehlerreport.pdf Jane Doe 123456 KC2-BL001")
                 0 = Some "Fehlerreport.pdf") by reflexivity.
  assert (H3 : nth_error (split "Fehlerreport.pdf Jane Doe 123456 KC2-BL001")
                 (List.length
                    (split "Fehlerreport.pdf Jane Doe 123456 KC2-BL001") - 2)
               = Some "123456") by reflexivity.
  assert (H4 : all_chars is_digit "123456" = true) by reflexivity.
  assert (H5 : forall pre m post,
             ~ occurs DATE_RE "Fehlerreport.pdf" pre m post)
    by (apply (search_fixed_none _ _ date_re_width); reflexivity).
  split; [reflexivity|]; split; [exact H4|]; split; [exact H5|].
  exact (proj2 (proj1 (transaction_information_composition
                         _ _ _ H1 H2 H3 H4) H5)).
Defined.

End ParseRecords.

(** * Further properties *)

(** ** fix_csv.py: rows and the whole file *)

Section FixCsvMore.

Import FixCsv.

Implicit Types (fields out : list string) (reader : list (list string)).

Lemma normalize_row_keeps_19 fields :
  List.length fields = 19 -> normalize_row fields = Ok fields.
Proof.
  intros E; unfold normalize_row.
  rewrite expected_header_length, E; reflexivity.
Qed.

(** The two ways through [normalize_row]. *)
Lemma normalize_row_cases fields :
  (List.length fields = 19 /\ normalize_row fields = Ok fields)
  \/ (List.length fields <> 19
      /\ normalize_row fields = Ok (RowSpec.normalized fields)).
Proof.
  destruct (Nat.eq_dec (List.length fields) 19) as [E|N].
  - left; split; [exact E | now apply normalize_row_keeps_19].
  - right; split; [exact N | now apply normalize_row_repair].
Qed.

(** X1. Repairing a repaired row changes nothing. *)
Theorem normalize_row_idempotent fields :
  (out <- normalize_row fields ;; normalize_row out) = normalize_row fields.
Proof.
  destruct (normalize_row_cases fields) as [[E ->] | [N ->]]; cbn [bind].
  - now apply normalize_row_keeps_19.
  - now apply normalize_row_keeps_19.
Qed.

Lemma anchor_from_fields fields :
  RowSpec.anchor fields = "" \/
  (In (RowSpec.anchor fields) fields
   /\ mandate_like (RowSpec.anchor fields) = true).
Proof.
  unfold RowSpec.anchor.
  destruct (find mandate_like fields) as [v|] eqn:Hf; [right | now left].
  now apply find_some in Hf.
Qed.

Lemma salvage_from_fields fields :
  (fst (RowSpec.salvage fields) = ""
   \/ In (fst (RowSpec.salvage fields)) fields)
  /\ (snd (RowSpec.salvage fields) = ""
      \/ In (snd (RowSpec.salvage fields)) fields).
Proof.
  assert (Hin : forall v, In v (rev (filter truthy fields)) -> In v fields).
  { intros v Hv; apply in_rev, filter_In in Hv; tauto. }
  unfold RowSpec.salvage.
  destruct (rev (filter truthy fields)) as [|b [|a r]]; simpl; split; auto;
    right; apply Hin; simpl; auto.
Qed.

Lemma lead_from_fields fields i :
  RowSpec.lead fields i = "" \/ In (RowSpec.lead fields i) fields.
Proof.
  unfold RowSpec.lead.
  destruct (nth_in_or_default i fields ""); auto.
Qed.

(** X2. [normalize_row] invents nothing: every value of the result is empty
    or is one of the input values. *)
Theorem normalize_row_values_from_input fields :
  exists out,
    normalize_row fields = Ok out
    /\ forall v, In v out -> v = "" \/ In v fields.
Proof.
  destruct (normalize_row_cases fields) as [[E ->] | [N ->]].
  - exists fields; split; auto.
  - exists (RowSpec.normalized fields); split; [reflexivity|].
    destruct (salvage_from_fields fields) as [H15 H16].
    pose proof (anchor_from_fields fields) as H13.
    unfold RowSpec.normalized; simpl; intros v Hv.
    repeat (destruct Hv as [<- | Hv];
            [first [ apply lead_from_fields | now left | assumption
                   | tauto ]|]).
    contradiction.
Qed.

Lemma find_all_false {A : Type} (p : A -> bool) (l : list A) :
  Forall (fun v => p v = false) l -> find p l = None.
Proof.
  induction 1 as [|h t Hh _ IH]; simpl; [reflexivity | now rewrite Hh].
Qed.

(** X3. In a row whose length is not 19, slot 13 never holds anything but
    a mandate-like value: it is empty or mandate-like, and it is empty
    when no input value is mandate-like. *)
Theorem slot_13_is_anchor_or_empty fields :
  List.length fields <> 19 ->
  exists out info,
    normalize_row fields = Ok out
    /\ nth_error out 13 = Some info
    /\ (info = "" \/ mandate_like info = true)
    /\ (Forall (fun v => mandate_like v = false) fields -> info = "").
Proof.
  intros N.
  exists (RowSpec.normalized fields), (RowSpec.anchor fields).
  split; [now apply normalize_row_repair|].
  split; [reflexivity|]; split.
  - destruct (anchor_from_fields fields); tauto.
  - intros Hnone; unfold RowSpec.anchor.
    now rewrite (find_all_false _ _ Hnone).
Qed.

Lemma slot_13_is_anchor_or_empty_witness :
  List.length ["REJECTED"; "1234-2024-03-01"; "KC2-BL001"] <> 19
  /\ Forall (fun v => mandate_like v = false)
       ["REJECTED"; "1234-2024-03-01"; "KC2-BL001"]
  /\ exists out,
       normalize_row ["REJECTED"; "1234-2024-03-01"; "KC2-BL001"] = Ok out
       /\ nth_error out 13 = Some "".
Proof.
  assert (H : List.length ["REJECTED"; "1234-2024-03-01"; "KC2-BL001"] <> 19)
    by (simpl; discriminate).
  assert (Hnone : Forall (fun v => mandate_like v = false)
                    ["REJECTED"; "1234-2024-03-01"; "KC2-BL001"])
    by (repeat constructor).
  split; [exact H|]; split; [exact Hnone|].
  destruct (slot_13_is_anchor_or_empty _ H)
    as (out & info & Hrun & H13 & _ & Hempty).
  exists out; split; [exact Hrun|].
  rewrite H13, (Hempty Hnone); reflexivity.
Defined.

(** X4. What the mandate-like pattern accepts: six digits or more, a dash,
    four digits, a dash, two digits, a dash and two digits; and, because
    [$] also stands before a last newline, the same followed by one
    newline. *)
Theorem mandate_pattern_accepts v :
  mandate_like v = true <->
  exists id y m d nl,
    v = (id ++ "-" ++ y ++ "-" ++ m ++ "-" ++ d ++ nl)%string
    /\ 6 <= String.length id /\ all_chars is_digit id = true
    /\ String.length y = 4 /\ all_chars is_digit y = true
    /\ String.length m = 2 /\ all_chars is_digit m = true
    /\ String.length d = 2 /\ all_chars is_digit d = true
    /\ (nl = "" \/ nl = String "010" "").
Proof. apply mandate_like_shape. Qed.

(** *** The loop of [main] *)

Lemma write_fixed_rows reader :
  forall written,
  exists fixed,
    write_fixed reader written = Ok (written ++ fixed)
    /\ Forall2 (fun fields row => normalize_row fields = Ok row) reader fixed
    /\ Forall (fun row => List.length row = 19) fixed.
Proof.
  induction reader as [|fields rest IH]; intros written; simpl.
  - exists []; rewrite app_nil_r; repeat split; constructor.
  - assert (Hrow : exists row, normalize_row fields = Ok row
                               /\ List.length row = 19).
    { destruct (normalize_row_cases fields) as [[E ->] | [N ->]]; eauto. }
    destruct Hrow as (row & Hrow & Hlen); rewrite Hrow; cbn [bind].
    destruct (IH (written ++ [row])) as (fixed & -> & Hall & Hlens).
    exists (row :: fixed); rewrite <- app_assoc; simpl.
    repeat split; constructor; auto.
Qed.

Lemma write_fixed_keeps_19 reader :
  Forall (fun row => List.length row = 19) reader ->
  forall written, write_fixed reader written = Ok (written ++ reader).
Proof.
  induction 1 as [|row rest Hrow _ IH]; intros written; simpl.
  - now rewrite app_nil_r.
  - rewrite (normalize_row_keeps_19 _ Hrow); cbn [bind].
    rewrite IH, <- app_assoc; reflexivity.
Qed.



(** X6. Running the fixer on the rows it wrote writes the same rows again. *)
Theorem main_idempotent argv reader written :
  main argv reader = Ok (0, Some written) ->
  main argv written = Ok (0, Some written).
Proof.
  unfold main.
  destruct (Nat.ltb_spec (List.length argv) 2); [discriminate|].
  destruct (write_fixed_rows (skipn 1 reader) [EXPECTED_HEADER])
    as (fixed & -> & _ & Hlens); cbn [bind].
  intros [= <-]; simpl.
  rewrite (write_fixed_keeps_19 _ Hlens); reflexivity.
Qed.

Lemma main_idempotent_witness :
  main ["in.csv"; "out.csv"] [ ["h"]; ["REJECTED"; ""; "KC2-BL001"] ]
  = Ok (0, Some
           [ EXPECTED_HEADER;
             ["REJECTED"; ""; "KC2-BL001"; ""; ""; ""; ""; ""; ""; "";
              ""; ""; ""; ""; ""; "REJECTED"; "KC2-BL001"; ""; ""] ])
  /\ main ["in.csv"; "out.csv"]
       [ EXPECTED_HEADER;
         ["REJECTED"; ""; "KC2-BL001"; ""; ""; ""; ""; ""; ""; "";
          ""; ""; ""; ""; ""; "REJECTED"; "KC2-BL001"; ""; ""] ]
     = Ok (0, Some
              [ EXPECTED_HEADER;
                ["REJECTED"; ""; "KC2-BL001"; ""; ""; ""; ""; ""; ""; "";
                 ""; ""; ""; ""; ""; "REJECTED"; "KC2-BL001"; ""; ""] ]).
Proof.
  assert (H : main ["in.csv"; "out.csv"]
                [ ["h"]; ["REJECTED"; ""; "KC2-BL001"] ]
              = Ok (0, Some
                       [ EXPECTED_HEADER;
                         ["REJECTED"; ""; "KC2-BL001"; ""; ""; ""; ""; "";
                          ""; ""; ""; ""; ""; ""; ""; "REJECTED";
                          "KC2-BL001"; ""; ""] ])) by reflexivity.
  split; [exact H|].
  exact (main_idempotent _ _ _ H).
Defined.

End FixCsvMore.

(** ** pdf2csv.py: dates, amounts and records *)

Section Pdf2csvMore.

Import Re Pdf2csv LineSpec.
Local Open Scope string_scope.

Implicit Types (line filename : string) (lines : list string).

(** The loop body in terms of [LineSpec]. *)
Lemma parse_line_spec line :
  parse_line line =
  if accepted line then
    mandate_date <- yyyymmdd_to_first_of_month
                      (find_date_yyyymmdd_in_filename (filename_of line)) ;;
    amount <- detect_amount_from_filename (filename_of line) ;;
    Ok (Some (record amount (customer_name_of line) (customer_id_of line)
                (if truthy mandate_date
                 then customer_id_of line ++ "-" ++ mandate_date
                 else customer_id_of line)
                (error_code_of line)))
  else Ok None.
Proof.
  unfold accepted, parse_line.
  destruct (Nat.ltb_spec (List.length (split line)) 4) as [Hlt|Hge].
  - destruct (Nat.leb_spec 4 (List.length (split line))); [lia|reflexivity].
  - destruct (Nat.leb_spec 4 (List.length (split line))); [|lia].
    destruct (line_tokens _ Hge) as (f & c & e & Hf & Hc & -> & He & ->).
    assert (He' : nth_error (split line) (List.length (split line) - 1)
                  = Some e).
    { destruct (nth_error (split line) (List.length (split line) - 1))
        as [e'|] eqn:E; [|apply nth_error_None in E; lia].
      rewrite (getitem_back_ok _ 1 e') in He by (auto; lia).
      congruence. }
    rewrite He; cbn [bind andb].
    unfold filename_of, customer_id_of, error_code_of, customer_name_of.
    rewrite (nth_error_nth _ _ "" Hf), (nth_error_nth _ _ "" Hc),
      (nth_error_nth _ _ "" He').
    destruct (all_chars is_digit c) eqn:Hd.
    + assert (Hm : fullmatch (Plus digit) c = true).
      { apply fullmatch_lang, lang_plus_class; split; [|exact Hd].
        pose proof (split_nonempty line) as Hne.
        rewrite Forall_forall in Hne; apply Hne.
        eapply nth_error_In; exact Hc. }
      rewrite Hm; reflexivity.
    + destruct (fullmatch (Plus digit) c) eqn:Hm; [|reflexivity].
      apply fullmatch_lang, lang_plus_class in Hm; destruct Hm as [_ Hm].
      unfold digit in Hm; congruence.
Qed.

(** What [parse_line] answers, case by case. *)
Lemma parse_line_cases line :
  (accepted line = false /\ parse_line line = Ok None)
  \/ (accepted line = true /\ parse_line line = Raise ParserError
      /\ Dateutil.parse (find_date_yyyymmdd_in_filename (filename_of line))
         = Raise ParserError)
  \/ (accepted line = true
      /\ exists mandate_date amount,
           yyyymmdd_to_first_of_month
             (find_date_yyyymmdd_in_filename (filename_of line))
           = Ok mandate_date
           /\ detect_amount_from_filename (filename_of line) = Ok amount
           /\ parse_line line =
              Ok (Some (record amount (customer_name_of line)
                          (customer_id_of line)
                          (if truthy mandate_date
                           then customer_id_of line ++ "-" ++ mandate_date
                           else customer_id_of line)
                          (error_code_of line)))).
Proof.
  rewrite parse_line_spec.
  destruct (accepted line); [right | now left].
  destruct (detect_amount_total (filename_of line)) as [amount Hamount].
  unfold yyyymmdd_to_first_of_month.
  destruct (truthy (find_date_yyyymmdd_in_filename (filename_of line)));
    cbn [negb].
  - destruct (Dateutil.parse _) as [dt|e] eqn:Hparse; cbn [bind].
    + right; split; [reflexivity|]; rewrite Hamount; cbn [bind]; eauto.
    + left; pose proof (dateutil_parse_exn _ _ Hparse); subst e; auto.
  - right; split; [reflexivity|]; rewrite Hamount; cbn [bind]; eauto.
Qed.

(** X7. [find_date_yyyymmdd_in_filename] returns the leftmost "20" and six
    digits of the file name (not the last, and not the longest run), and
    the empty string exactly when the file name has none. *)
Theorem find_date_is_leftmost_match filename :
  (find_date_yyyymmdd_in_filename filename = ""
   <-> forall pre m post, ~ occurs DATE_RE filename pre m post)
  /\ (forall pre m post,
         leftmost DATE_RE filename pre m post ->
         find_date_yyyymmdd_in_filename filename = m)
  /\ (find_date_yyyymmdd_in_filename filename <> "" ->
      exists pre six post,
        filename = pre ++ "20" ++ six ++ post
        /\ length six = 6 /\ all_chars is_digit six = true
        /\ find_date_yyyymmdd_in_filename filename = "20" ++ six).
Proof.
  unfold find_date_yyyymmdd_in_filename.
  destruct (search_fixed DATE_RE 8 filename) as [m0|] eqn:Hs.
  - destruct (search_fixed_some _ _ date_re_width _ _ Hs)
      as (pre0 & post0 & [Hfile Hm0] & Hleft0).
    assert (Hshape : exists six, m0 = "20" ++ six /\ length six = 6
                                 /\ all_chars is_digit six = true).
    { apply lang_cat_inv in Hm0; destruct Hm0 as (s1 & s2 & -> & H1 & H2).
      apply lang_lit in H1; apply lang_rep_class in H2; subst.
      exists s2; tauto. }
    destruct Hshape as (six & -> & L & D).
    split; [split|split].
    + discriminate.
    + intros Hno; exfalso; apply (Hno pre0 ("20" ++ six) post0).
      split; assumption.
    + intros pre m post Hl.
      pose proof (leftmost_search _ _ date_re_width _ _ _ _ Hl) as Hs'.
      congruence.
    + intros _; exists pre0, six, post0; repeat split; auto.
  - split; [split|split].
    + intros _; now apply (search_fixed_none _ _ date_re_width).
    + reflexivity.
    + intros pre m post Hl.
      pose proof (leftmost_search _ _ date_re_width _ _ _ _ Hl) as Hs'.
      congruence.
    + congruence.
Qed.

Lemma lookup_In (d : dict) k v : lookup d k = Some v -> In (k, v) d.
Proof.
  induction d as [|[k' v'] t IH]; simpl; [discriminate|].
  destruct (String.eqb_spec k' k) as [->|]; [intros [= ->]|]; auto.
Qed.

(** X8. [detect_amount_from_filename] never raises (the subscript is
    guarded by the membership test) and knows three answers only. *)
Theorem detect_amount_range filename :
  exists amount,
    detect_amount_from_filename filename = Ok amount
    /\ In amount [""; "39.90"; "54.90"].
Proof.
  unfold detect_amount_from_filename; simpl first_prefix_amount.
  repeat match goal with
         | |- context [startswith ?f ?p] => destruct (startswith f p)
         end;
    try (eexists; split; [reflexivity | simpl; auto 6]).
  destruct (search_fixed _ _ _) as [m|];
    [|eexists; split; [reflexivity | simpl; auto 6]].
  unfold dict_contains, dict_getitem.
  destruct (lookup PRODUCT_AMOUNT_BY_TWO_DIGIT (substring 0 2 m))
    as [amount|] eqn:Hlook;
    [|eexists; split; [reflexivity | simpl; auto 6]].
  exists amount; split; [reflexivity|].
  apply lookup_In in Hlook; simpl in Hlook.
  destruct Hlook as [H | [H | [H | []]]]; injection H as _ <-;
    simpl; auto 6.
Qed.

(** X9. The caption line is dropped wherever it stands, not only in first
    place: it never becomes a record. *)
Theorem caption_line_ignored_anywhere caption before after :
  match_anchored HEADER_RE caption = true ->
  parse_records_from_lines (before ++ caption :: after)%list
  = parse_records_from_lines (before ++ after)%list.
Proof.
  intros H; rewrite !parse_records_from_lines_loop.
  apply parse_lines_skip, header_is_skipped, H.
Qed.

Lemma caption_line_ignored_anywhere_witness :
  match_anchored HEADER_RE "Dateiname Name  Kundennummer Fehler" = true
  /\ parse_records_from_lines
       [ "PPS_DB_VPLUS3_20240301.pdf Jane Doe 123456 KC2-BL001";
         "Dateiname Name  Kundennummer Fehler";
         "PPS_DB_VPLUS3_20240301.pdf John Roe 654321 KC2-BL001" ]
     = parse_records_from_lines
         [ "PPS_DB_VPLUS3_20240301.pdf Jane Doe 123456 KC2-BL001";
           "PPS_DB_VPLUS3_20240301.pdf John Roe 654321 KC2-BL001" ].
Proof.
  assert (H : match_anchored HEADER_RE "Dateiname Name  Kundennummer Fehler"
              = true) by reflexivity.
  split; [exact H|].
  exact (caption_line_ignored_anywhere _
           ["PPS_DB_VPLUS3_20240301.pdf Jane Doe 123456 KC2-BL001"]
           ["PPS_DB_VPLUS3_20240301.pdf John Roe 654321 KC2-BL001"] H).
Defined.

Lemma parse_lines_acc lines :
  forall records,
    parse_lines lines records
    = (found <- parse_lines lines [] ;; Ok (records ++ found)%list).
Proof.
  induction lines as [|line rest IH]; intros records; simpl.
  - now rewrite app_nil_r.
  - destruct (parse_line line) as [[rec|]|e]; cbn [bind]; auto.
    rewrite (IH (records ++ [rec])%list), (IH [rec]).
    destruct (parse_lines rest []); cbn [bind]; [|reflexivity].
    now rewrite <- app_assoc.
Qed.

(** X10. Parsing two lists of lines one after the other is parsing each
    and appending the records: lines are read independently, and an error
    in either part is the error of the whole. *)
Theorem parse_records_append lines1 lines2 :
  parse_records_from_lines (lines1 ++ lines2)%list
  = (records1 <- parse_records_from_lines lines1 ;;
     records2 <- parse_records_from_lines lines2 ;;
     Ok (records1 ++ records2)%list).
Proof.
  rewrite !parse_records_from_lines_loop.
  induction lines1 as [|line rest IH]; simpl.
  - destruct (parse_lines lines2 []); reflexivity.
  - destruct (parse_line line) as [[rec|]|e]; cbn [bind]; auto.
    rewrite (parse_lines_acc (rest ++ lines2)%list), IH.
    rewrite (parse_lines_acc rest [rec]).
    destruct (parse_lines rest []); cbn [bind]; [|reflexivity].
    destruct (parse_lines lines2 []); cbn [bind]; [|reflexivity].
    now rewrite <- app_assoc.
Qed.

(** Every record comes from an accepted line, in the order of the
    lines. *)
Lemma parse_lines_records lines :
  forall records,
    parse_lines lines [] = Ok records ->
    Forall2
      (fun line rec =>
         exists mandate_date amount,
           yyyymmdd_to_first_of_month
             (find_date_yyyymmdd_in_filename (filename_of line))
           = Ok mandate_date
           /\ detect_amount_from_filename (filename_of line) = Ok amount
           /\ rec = record amount (customer_name_of line)
                      (customer_id_of line)
                      (if truthy mandate_date
                       then customer_id_of line ++ "-" ++ mandate_date
                       else customer_id_of line)
                      (error_code_of line))
      (filter accepted lines) records.
Proof.
  induction lines as [|line rest IH]; intros records; simpl.
  - intros [= <-]; constructor.
  - destruct (parse_line_cases line)
      as [[Hacc ->] | [(Hacc & -> & _) | (Hacc & md & am & Hmd & Ham & ->)]];
      rewrite Hacc; cbn [bind].
    + apply IH.
    + discriminate.
    + rewrite parse_lines_acc.
      destruct (parse_lines rest []) as [found|e] eqn:Hrest; cbn [bind];
        [|discriminate].
      intros [= <-]; simpl; constructor; eauto.
Qed.

Lemma accepted_tokens line :
  accepted line = true ->
  customer_id_of line <> ""
  /\ all_chars is_digit (customer_id_of line) = true
  /\ error_code_of line <> ""
  /\ filename_of line <> "".
Proof.
  unfold accepted; intros H; apply andb_true_iff in H.
  destruct H as [Hlen Hd]; apply Nat.leb_le in Hlen.
  pose proof (split_nonempty line) as Hne; rewrite Forall_forall in Hne.
  unfold customer_id_of, error_code_of, filename_of in *.
  repeat split; auto; apply Hne, nth_In; lia.
Qed.

(** X11. When [parse_records_from_lines] returns, there is exactly one
    record for each accepted line, in the order of the lines, and it
    carries that line's tokens: the last as ERROR CODE, the one before as
    CUSTOMER ID, and those between the first and these two, joined by
    single spaces, as CUSTOMER NAME. *)
Theorem records_follow_accepted_lines lines records :
  parse_records_from_lines lines = Ok records ->
  Forall2
    (fun line rec =>
       lookup rec "CUSTOMER NAME" = Some (customer_name_of line)
       /\ lookup rec "CUSTOMER ID" = Some (customer_id_of line)
       /\ lookup rec "ERROR CODE" = Some (error_code_of line))
    (filter accepted lines) records.
Proof.
  rewrite parse_records_from_lines_loop; intros H.
  eapply Forall2_impl; [|apply (parse_lines_records _ _ H)].
  intros line rec (md & am & _ & _ & ->); repeat split; reflexivity.
Qed.

Lemma records_follow_accepted_lines_witness :
  parse_records_from_lines
    [ "Seite 1 von 3";
      "PPS_DB_VPLUS3_20240301.pdf Jane van Doe 123456 KC2-BL001";
      "PPS_DB_VPLUS3_20240301.pdf John Roe 65432x KC2-BL001";
      "x.pdf Ann Lee 77 E9" ]
  = Ok [ record "39.90" "Jane van Doe" "123456" "123456-2024-03-01"
           "KC2-BL001";
         record "" "Ann Lee" "77" "77" "E9" ]
  /\ Forall2
       (fun line rec =>
          lookup rec "CUSTOMER NAME" = Some (customer_name_of line)
          /\ lookup rec "CUSTOMER ID" = Some (customer_id_of line)
          /\ lookup rec "ERROR CODE" = Some (error_code_of line))
       [ "PPS_DB_VPLUS3_20240301.pdf Jane van Doe 123456 KC2-BL001";
         "x.pdf Ann Lee 77 E9" ]
       [ record "39.90" "Jane van Doe" "123456" "123456-2024-03-01"
           "KC2-BL001";
         record "" "Ann Lee" "77" "77" "E9" ].
Proof.
  assert (H : parse_records_from_lines
                [ "Seite 1 von 3";
                  "PPS_DB_VPLUS3_20240301.pdf Jane van Doe 123456 KC2-BL001";
                  "PPS_DB_VPLUS3_20240301.pdf John Roe 65432x KC2-BL001";
                  "x.pdf Ann Lee 77 E9" ]
              = Ok [ record "39.90" "Jane van Doe" "123456"
                       "123456-2024-03-01" "KC2-BL001";
                     record "" "Ann Lee" "77" "77" "E9" ])
    by (vm_compute; reflexivity).
  split; [exact H|].
  exact (records_follow_accepted_lines _ _ H).
Defined.

(** X12. Every record has the 19 keys of the schema, in the order of the
    header; STATUS is REJECTED, MERCHANT is the default merchant and the
    eleven fields this report cannot fill are empty. *)
Theorem records_have_schema lines records :
  parse_records_from_lines lines = Ok records ->
  Forall
    (fun rec =>
       map fst rec = CSV_HEADER
       /\ lookup rec "STATUS" = Some "REJECTED"
       /\ lookup rec "MERCHANT" = Some DEFAULT_MERCHANT
       /\ Forall (fun key => lookup rec key = Some "") EMPTY_FIELDS)
    records.
Proof.
  rewrite parse_records_from_lines_loop; intros H.
  apply parse_lines_records in H.
  induction H as [|line rec ls rs (md & am & _ & _ & ->) _ IH];
    constructor; auto.
  repeat split; try reflexivity.
  unfold EMPTY_FIELDS; repeat constructor.
Qed.

Lemma records_have_schema_witness :
  parse_records_from_lines ["x.pdf Ann Lee 77 E9"]
  = Ok [record "" "Ann Lee" "77" "77" "E9"]
  /\ Forall
       (fun rec =>
          map fst rec = CSV_HEADER
          /\ lookup rec "STATUS" = Some "REJECTED"
          /\ lookup rec "MERCHANT" = Some DEFAULT_MERCHANT
          /\ Forall (fun key => lookup rec key = Some "") EMPTY_FIELDS)
       [record "" "Ann Lee" "77" "77" "E9"].
Proof.
  assert (H : parse_records_from_lines ["x.pdf Ann Lee 77 E9"]
              = Ok [record "" "Ann Lee" "77" "77" "E9"])
    by (vm_compute; reflexivity).
  split; [exact H|].
  exact (records_have_schema _ _ H).
Defined.

Lemma blacklist_reason error_code :
  dict_get ERROR_REASON_MAP error_code ""
  = if (error_code =? "KC2-BL001")%string
    then "User in the Blacklist" else "".
Proof.
  unfold dict_get, ERROR_REASON_MAP, lookup.
  rewrite (String.eqb_sym "KC2-BL001" error_code).
  destruct (error_code =? "KC2-BL001")%string; reflexivity.
Qed.

(** X13. In every record CUSTOMER ID is a non-empty string of digits,
    ERROR CODE is not empty, and ERROR REASON is "User in the Blacklist"
    exactly for the code KC2-BL001 and empty for any other. *)
Theorem records_are_well_formed lines records :
  parse_records_from_lines lines = Ok records ->
  Forall
    (fun rec =>
       exists customer_id error_code,
         lookup rec "CUSTOMER ID" = Some customer_id
         /\ customer_id <> ""
         /\ all_chars is_digit customer_id = true
         /\ lookup rec "ERROR CODE" = Some error_code
         /\ error_code <> ""
         /\ lookup rec "ERROR REASON"
            = Some (if (error_code =? "KC2-BL001")%string
                    then "User in the Blacklist" else ""))
    records.
Proof.
  rewrite parse_records_from_lines_loop; intros H.
  apply parse_lines_records in H.
  assert (Hacc : Forall (fun line => accepted line = true)
                   (filter accepted lines)).
  { apply Forall_forall; intros line Hin; now apply filter_In in Hin. }
  induction H as [|line rec ls rs (md & am & _ & _ & ->) _ IH];
    constructor; [|apply IH; now inversion Hacc].
  inversion Hacc as [|? ? Hline _]; subst.
  destruct (accepted_tokens _ Hline) as (Hcid & Hdigits & Hcode & _).
  exists (customer_id_of line), (error_code_of line).
  repeat split; auto.
  simpl; now rewrite blacklist_reason.
Qed.

Lemma records_are_well_formed_witness :
  parse_records_from_lines
    [ "a.pdf Jane Doe 123456 KC2-BL001"; "b.pdf John Roe 0042 kc2-bl001" ]
  = Ok [ record "" "Jane Doe" "123456" "123456" "KC2-BL001";
         record "" "John Roe" "0042" "0042" "kc2-bl001" ]
  /\ Forall
       (fun rec =>
          exists customer_id error_code,
            lookup rec "CUSTOMER ID" = Some customer_id
            /\ customer_id <> ""
            /\ all_chars is_digit customer_id = true
            /\ lookup rec "ERROR CODE" = Some error_code
            /\ error_code <> ""
            /\ lookup rec "ERROR REASON"
               = Some (if (error_code =? "KC2-BL001")%string
                       then "User in the Blacklist" else ""))
       [ record "" "Jane Doe" "123456" "123456" "KC2-BL001";
         record "" "John Roe" "0042" "0042" "kc2-bl001" ].
Proof.
  assert (H : parse_records_from_lines
                [ "a.pdf Jane Doe 123456 KC2-BL001";
                  "b.pdf John Roe 0042 kc2-bl001" ]
              = Ok [ record "" "Jane Doe" "123456" "123456" "KC2-BL001";
                     record "" "John Roe" "0042" "0042" "kc2-bl001" ])
    by (vm_compute; reflexivity).
  split; [exact H|].
  exact (records_are_well_formed _ _ H).
Defined.

Lemma first_of_month_usable filename :
  (exists mandate_date,
      yyyymmdd_to_first_of_month (find_date_yyyymmdd_in_filename filename)
      = Ok mandate_date)
  <-> date_usable filename.
Proof.
  unfold date_usable, yyyymmdd_to_first_of_month, Dateutil.parse.
  destruct (find_date_shape filename) as [-> | Hm].
  - simpl; split; eauto.
  - rewrite Hm.
    assert (Hne : find_date_yyyymmdd_in_filename filename <> "").
    { intros E; rewrite E in Hm; discriminate. }
    apply truthy_nonempty in Hne as Ht; rewrite Ht; cbn [negb].
    destruct (Dateutil.valid_date _ _ _); cbn [bind]; split;
      eauto; intros H.
    + destruct H; discriminate.
    + destruct H; [contradiction | discriminate].
Qed.

Lemma parse_line_returns line :
  (exists step, parse_line line = Ok step)
  <-> (accepted line = true -> date_usable (filename_of line)).
Proof.
  rewrite <- first_of_month_usable, parse_line_spec.
  destruct (accepted line).
  - destruct (yyyymmdd_to_first_of_month _) as [md|e]; cbn [bind].
    + destruct (detect_amount_total (filename_of line)) as [am ->].
      cbn [bind]; split; eauto.
    + split; [intros [step H]; discriminate|].
      intros H; destruct (H eq_refl) as [md H']; discriminate.
  - split; [intros _ H; discriminate | eauto].
Qed.

Lemma parse_lines_result lines :
  forall records,
    parse_lines lines records = Raise ParserError
    \/ exists found, parse_lines lines records = Ok found.
Proof.
  induction lines as [|line rest IH]; intros records; simpl; eauto.
  destruct (parse_line_cases line)
    as [[_ ->] | [(_ & -> & _) | (_ & md & am & _ & _ & ->)]];
    cbn [bind]; auto.
Qed.

(** X14. The only way [parse_records_from_lines] can fail is a
    [ParserError], and it returns normally exactly when no accepted line
    carries, as the first date of its file name token, eight digits that
    are not a calendar date; lines that are skipped never matter. *)
Theorem parse_records_returns_iff_dates_usable lines :
  (parse_records_from_lines lines = Raise ParserError
   \/ exists records, parse_records_from_lines lines = Ok records)
  /\ ((exists records, parse_records_from_lines lines = Ok records)
      <-> Forall (fun line =>
                    accepted line = true -> date_usable (filename_of line))
            lines).
Proof.
  rewrite parse_records_from_lines_loop; split;
    [apply parse_lines_result|].
  induction lines as [|line rest IH]; simpl.
  - split; [constructor | eauto].
  - split.
    + intros [records H]; constructor.
      * apply parse_line_returns.
        destruct (parse_line line); [eauto | discriminate].
      * apply IH.
        destruct (parse_line line) as [[rec|]|e]; cbn [bind] in H;
          [|eauto|discriminate].
        rewrite parse_lines_acc in H.
        destruct (parse_lines rest []); [eauto | discriminate].
    + intros H; inversion H as [|? ? Hline Hrest]; subst.
      apply parse_line_returns in Hline; destruct Hline as [step ->].
      apply IH in Hrest; destruct Hrest as [records Hrest].
      cbn [bind]; destruct step as [rec|]; [|eauto].
      rewrite parse_lines_acc, Hrest; cbn [bind]; eauto.
Qed.

(** *** Digits in, digits out *)

Lemma digit_char c :
  is_digit c = true ->
  exists n, n < 10 /\ c = ascii_of_nat (48 + n) /\ digit_value c = n.
Proof.
  unfold is_digit, in_range, digit_value; intros H.
  apply andb_true_iff in H; destruct H as [H1 H2].
  apply Nat.leb_le in H1, H2.
  exists (nat_of_ascii c - 48); repeat split; [lia|].
  replace (48 + (nat_of_ascii c - 48)) with (nat_of_ascii c) by lia.
  now rewrite ascii_nat_embedding.
Qed.

Lemma int_from_uint (d : Decimal.uint) :
  forall acc,
    int_from acc (NilEmpty.string_of_uint d) = Nat.of_uint_acc d acc.
Proof.
  induction d; intros acc;
    cbn [NilEmpty.string_of_uint int_from Nat.of_uint_acc];
    rewrite ?IHd, ?Nat.tail_mul_spec; try reflexivity; f_equal;
    match goal with
    | |- context [digit_value ?c] =>
        let v := eval vm_compute in (digit_value c) in
        change (digit_value c) with v
    end;
    lia.
Qed.

Lemma digits_uint s :
  all_chars is_digit s = true ->
  exists d : Decimal.uint, NilEmpty.string_of_uint d = s.
Proof.
  induction s as [|c s IH]; simpl; intros H.
  - exists Decimal.Nil; reflexivity.
  - apply andb_true_iff in H; destruct H as [Hc Hs].
    destruct (IH Hs) as [d <-].
    destruct (digit_char _ Hc) as (n & Hn & -> & _).
    destruct n as [|[|[|[|[|[|[|[|[|[|n]]]]]]]]]];
      [ exists (Decimal.D0 d) | exists (Decimal.D1 d) | exists (Decimal.D2 d)
      | exists (Decimal.D3 d) | exists (Decimal.D4 d) | exists (Decimal.D5 d)
      | exists (Decimal.D6 d) | exists (Decimal.D7 d) | exists (Decimal.D8 d)
      | exists (Decimal.D9 d) | lia ];
      reflexivity.
Qed.

(** Padding the canonical writing of a number with zeros gives back any
    non-empty writing of it. *)
Lemma zeros_unorm (d : Decimal.uint) :
  d <> Decimal.Nil ->
  String.length (NilEmpty.string_of_uint (Decimal.unorm d))
  <= String.length (NilEmpty.string_of_uint d)
  /\ (zeros (String.length (NilEmpty.string_of_uint d)
             - String.length (NilEmpty.string_of_uint (Decimal.unorm d)))
      ++ NilEmpty.string_of_uint (Decimal.unorm d))%string
     = NilEmpty.string_of_uint d.
Proof.
  induction d; intros Hd; try congruence;
    try (simpl; split; [lia | now rewrite Nat.sub_diag]).
  destruct (Decimal.uint_eq_dec d Decimal.Nil) as [->|Hne].
  - simpl; split; [lia | reflexivity].
  - destruct (IHd Hne) as [Hle Hpad].
    change (Decimal.unorm (Decimal.D0 d)) with (Decimal.unorm d).
    cbn [NilEmpty.string_of_uint String.length]; split; [lia|].
    replace (S (String.length (NilEmpty.string_of_uint d))
             - String.length (NilEmpty.string_of_uint (Decimal.unorm d)))
      with (S (String.length (NilEmpty.string_of_uint d)
               - String.length (NilEmpty.string_of_uint (Decimal.unorm d))))
      by lia.
    simpl; now rewrite Hpad.
Qed.

(** [f"{int(s):0{len(s)}d}"] gives back a non-empty string of digits. *)
Lemma format_int_round_trip s :
  s <> "" -> all_chars is_digit s = true ->
  format_0d (String.length s) (int s) = s.
Proof.
  intros Hne Hd; destruct (digits_uint _ Hd) as [d <-].
  assert (Hnil : d <> Decimal.Nil) by (intros ->; now apply Hne).
  unfold format_0d, str, int; rewrite int_from_uint.
  change (Nat.of_uint_acc d 0) with (Nat.of_uint d).
  rewrite DecimalNat.Unsigned.to_of.
  apply zeros_unorm, Hnil.
Qed.

Lemma format_int_two s :
  String.length s = 2 -> all_chars is_digit s = true ->
  format_0d 2 (int s) = s.
Proof.
  intros L D; rewrite <- L at 1; apply format_int_round_trip; auto.
  intros ->; discriminate.
Qed.

Lemma format_int_four s :
  String.length s = 4 -> all_chars is_digit s = true ->
  format_0d 4 (int s) = s.
Proof.
  intros L D; rewrite <- L at 1; apply format_int_round_trip; auto.
  intros ->; discriminate.
Qed.

Lemma eight_digits_parts s :
  fullmatch (Rep 8 digit) s = true ->
  s <> ""
  /\ String.length (substring 0 4 s) = 4
  /\ all_chars is_digit (substring 0 4 s) = true
  /\ String.length (substring 4 2 s) = 2
  /\ all_chars is_digit (substring 4 2 s) = true.
Proof.
  intros H; apply fullmatch_lang, lang_rep_class in H.
  destruct H as [L D].
  do 8 (destruct s as [|? s]; [discriminate|]).
  destruct s; [|discriminate].
  simpl in D |- *.
  repeat match goal with
         | H : _ && _ = true |- _ =>
             apply andb_true_iff in H; destruct H as [? ?]
         end.
  repeat split; try discriminate;
    repeat match goal with
           | Hd : is_digit ?c = true |- context [is_digit ?c] => rewrite Hd
           end;
    reflexivity.
Qed.

(** The derived date of eight digits, in closed form. *)
Lemma first_of_month_closed_form yyyymmdd :
  fullmatch (Rep 8 digit) yyyymmdd = true ->
  yyyymmdd_to_first_of_month yyyymmdd =
  if Dateutil.valid_date (int (substring 0 4 yyyymmdd))
       (int (substring 4 2 yyyymmdd)) (int (substring 6 2 yyyymmdd))
  then Ok (substring 0 4 yyyymmdd ++ "-" ++ substring 4 2 yyyymmdd ++ "-01")
  else Raise ParserError.
Proof.
  intros H; destruct (eight_digits_parts _ H) as (Hne & Ly & Dy & Lm & Dm).
  unfold yyyymmdd_to_first_of_month, Dateutil.parse.
  apply truthy_nonempty in Hne; rewrite Hne, H; cbn [negb].
  destruct (Dateutil.valid_date _ _ _); cbn [bind]; [|reflexivity].
  cbn [Dateutil.year Dateutil.month].
  now rewrite (format_int_four _ Ly Dy), (format_int_two _ Lm Dm).
Qed.

(** X15. For eight digits that are a calendar date,
    [yyyymmdd_to_first_of_month] returns the same four year digits, a
    dash, the same two month digits and "-01": the day is dropped, leading
    zeros are kept; for eight digits that are not a calendar date it
    raises. *)
Theorem first_of_month_keeps_year_and_month yyyymmdd :
  fullmatch (Rep 8 digit) yyyymmdd = true ->
  yyyymmdd_to_first_of_month yyyymmdd =
  if Dateutil.valid_date (int (substring 0 4 yyyymmdd))
       (int (substring 4 2 yyyymmdd)) (int (substring 6 2 yyyymmdd))
  then Ok (substring 0 4 yyyymmdd ++ "-" ++ substring 4 2 yyyymmdd ++ "-01")
  else Raise ParserError.
Proof. apply first_of_month_closed_form. Qed.

Lemma first_of_month_keeps_year_and_month_witness :
  fullmatch (Rep 8 digit) "20240229" = true
  /\ yyyymmdd_to_first_of_month "20240229" = Ok "2024-02-01".
Proof.
  assert (H : fullmatch (Rep 8 digit) "20240229" = true) by reflexivity.
  split; [exact H|].
  exact (first_of_month_keeps_year_and_month "20240229" H).
Defined.

(** *** The two files meet in TRANSACTION INFORMATION *)

Lemma digits_dash_unique a b x y :
  all_chars is_digit a = true -> all_chars is_digit b = true ->
  a ++ String "-" x = b ++ String "-" y -> a = b.
Proof.
  revert b; induction a as [|c a IH]; intros [|d b] Ha Hb E; simpl in *;
    auto.
  - injection E as <- _; discriminate.
  - injection E as -> _; discriminate.
  - apply andb_true_iff in Ha, Hb; destruct Ha as [_ Ha], Hb as [_ Hb].
    injection E as -> E; f_equal; eauto.
Qed.

Lemma digits_not_mandate_like s :
  all_chars is_digit s = true -> FixCsv.mandate_like s = false.
Proof.
  intros Hd; destruct (FixCsv.mandate_like s) eqn:Hm; [|reflexivity].
  apply mandate_like_shape in Hm.
  destruct Hm as (id & y & m & d & nl & -> & _).
  rewrite all_chars_append in Hd; apply andb_true_iff in Hd.
  destruct Hd as [_ Hd]; simpl in Hd; discriminate.
Qed.

Lemma id_date_mandate_like customer_id y m :
  all_chars is_digit customer_id = true ->
  String.length y = 4 -> all_chars is_digit y = true ->
  String.length m = 2 -> all_chars is_digit m = true ->
  FixCsv.mandate_like (customer_id ++ "-" ++ y ++ "-" ++ m ++ "-01")
  = (6 <=? String.length customer_id)%nat.
Proof.
  intros Hd Ly Dy Lm Dm.
  destruct (Nat.leb_spec 6 (String.length customer_id)) as [Hlen|Hlen].
  - apply mandate_like_shape.
    exists customer_id, y, m, "01", ""; repeat split; auto.
  - destruct (FixCsv.mandate_like _) eqn:Hm; [|reflexivity].
    apply mandate_like_shape in Hm.
    destruct Hm as (id & y' & m' & d' & nl & E & Hid & Did & _).
    apply digits_dash_unique in E; auto; subst; lia.
Qed.

(** X16. The TRANSACTION INFORMATION that [pdf2csv.py] writes is a
    mandate-like token for [fix_csv.py] exactly when the file name carries
    a date and the customer id has six digits or more. *)
Theorem transaction_information_is_anchor line rec :
  parse_records_from_lines [line] = Ok [rec] ->
  exists info,
    lookup rec "TRANSACTION INFORMATION" = Some info
    /\ FixCsv.mandate_like info
       = negb (find_date_yyyymmdd_in_filename (filename_of line) =? "")%string
         && (6 <=? String.length (customer_id_of line))%nat.
Proof.
  rewrite parse_records_from_lines_loop; simpl.
  destruct (parse_line_cases line)
    as [[_ ->] | [(_ & -> & _) | (Hacc & md & am & Hmd & _ & ->)]];
    cbn [bind]; try discriminate.
  intros [= <-]; eexists; split; [reflexivity|].
  destruct (accepted_tokens _ Hacc) as (_ & Hdigits & _).
  destruct (find_date_shape (filename_of line)) as [E | H8].
  - rewrite E in Hmd |- *; injection Hmd as <-; simpl.
    now apply digits_not_mandate_like.
  - destruct (eight_digits_parts _ H8) as (Hne & Ly & Dy & Lm & Dm).
    rewrite (first_of_month_closed_form _ H8) in Hmd.
    destruct (Dateutil.valid_date _ _ _); [|discriminate].
    injection Hmd as <-.
    apply String.eqb_neq in Hne; rewrite Hne; cbn [negb andb].
    match goal with
    | |- context [truthy ?x] => destruct (truthy x) eqn:Ht
    end.
    + exact (id_date_mandate_like _ _ _ Hdigits Ly Dy Lm Dm).
    + exfalso; destruct (substring 0 4 _); [discriminate Ly|].
      discriminate Ht.
Qed.

Lemma transaction_information_is_anchor_witness :
  parse_records_from_lines ["ABO_25new_20240315.pdf Jane Doe 4711 KC2-BL001"]
  = Ok [record "54.90" "Jane Doe" "4711" "4711-2024-03-01" "KC2-BL001"]
  /\ exists info,
       lookup (record "54.90" "Jane Doe" "4711" "4711-2024-03-01"
                 "KC2-BL001") "TRANSACTION INFORMATION" = Some info
       /\ FixCsv.mandate_like info = false.
Proof.
  assert (H : parse_records_from_lines
                ["ABO_25new_20240315.pdf Jane Doe 4711 KC2-BL001"]
              = Ok [record "54.90" "Jane Doe" "4711" "4711-2024-03-01"
                      "KC2-BL001"]) by (vm_compute; reflexivity).
  split; [exact H|].
  destruct (transaction_information_is_anchor _ _ H) as (info & Hinfo & Hm).
  exists info; split; [exact Hinfo | exact Hm].
Defined.

(** *** Only the tokens of a line matter *)

Lemma parse_line_tokens_only line line' :
  split line = split line' -> parse_line line = parse_line line'.
Proof. intros E; unfold parse_line; now rewrite E. Qed.

(** X17. The records depend on the lines only through their tokens: the
    amount and kind of white space between tokens, and before or after
    them, is immaterial, also for the caption line. *)
Theorem parse_records_depend_on_tokens lines lines' :
  map split lines = map split lines' ->
  parse_records_from_lines lines = parse_records_from_lines lines'.
Proof.
  rewrite !parse_records_from_lines_loop; generalize (@nil dict).
  revert lines'; induction lines as [|line rest IH];
    intros [|line' rest'] records E; simpl in E; try discriminate;
    [reflexivity|].
  injection E as Hline Hrest; simpl.
  rewrite (parse_line_tokens_only _ _ Hline).
  destruct (parse_line line') as [[rec|]|e]; cbn [bind]; auto.
Qed.

Lemma parse_records_depend_on_tokens_witness :
  map split
    [ " Dateiname Name Kundennummer   Fehler";
      String "009" "ABO_25new.pdf   Jane  Doe 123456 KC2-BL001 " ]
  = map split
      [ "Dateiname Name Kundennummer Fehler";
        "ABO_25new.pdf Jane Doe 123456 KC2-BL001" ]
  /\ parse_records_from_lines
       [ " Dateiname Name Kundennummer   Fehler";
         String "009" "ABO_25new.pdf   Jane  Doe 123456 KC2-BL001 " ]
     = parse_records_from_lines
         [ "Dateiname Name Kundennummer Fehler";
           "ABO_25new.pdf Jane Doe 123456 KC2-BL001" ].
Proof.
  assert (H : map split
                [ " Dateiname Name Kundennummer   Fehler";
                  String "009"
                    "ABO_25new.pdf   Jane  Doe 123456 KC2-BL001 " ]
              = map split
                  [ "Dateiname Name Kundennummer Fehler";
                    "ABO_25new.pdf Jane Doe 123456 KC2-BL001" ])
    by (vm_compute; reflexivity).
  split; [exact H|].
  exact (parse_records_depend_on_tokens _ _ H).
Defined.

(** *** Joining tokens and splitting again *)

Lemma split_from_token w :
  forall cur s,
    no_space w = true ->
    split_from cur (w ++ s) = split_from (cur ++ w) s.
Proof.
  unfold no_space; induction w as [|c w IH]; intros cur s H; simpl in *.
  - now rewrite append_nil_r.
  - apply andb_true_iff in H; destruct H as [Hc Hw].
    apply negb_true_iff in Hc; rewrite Hc, IH by exact Hw.
    now rewrite append_assoc.
Qed.

Lemma split_from_tokens_no_space s :
  forall cur,
    no_space cur = true ->
    Forall (fun t => no_space t = true) (split_from cur s).
Proof.
  induction s as [|c s IH]; intros cur Hcur; simpl.
  - destruct (truthy cur); constructor; auto.
  - destruct (is_space c) eqn:Hc.
    + destruct (truthy cur); [constructor; auto|]; now apply IH.
    + apply IH; unfold no_space in *; rewrite all_chars_append, Hcur.
      simpl; now rewrite Hc.
Qed.

Lemma slice_1_m2_In {A : Type} (l : list A) x :
  In x (slice_1_m2 l) -> In x l.
Proof.
  unfold slice_1_m2; intros H.
  rewrite <- (firstn_skipn (List.length l - 2) l).
  apply in_or_app; left.
  rewrite <- (firstn_skipn 1 (firstn (List.length l - 2) l)).
  apply in_or_app; right; exact H.
Qed.

Lemma split_join tokens :
  Forall (fun t => t <> "" /\ no_space t = true) tokens ->
  split (join " " tokens) = tokens.
Proof.
  unfold split, join; induction 1 as [|t rest [Hne Hns] Hrest IH]; simpl.
  - reflexivity.
  - apply truthy_nonempty in Hne.
    destruct rest as [|t' rest'].
    + rewrite <- (append_nil_r t) at 1.
      rewrite split_from_token by exact Hns; simpl; now rewrite Hne.
    + rewrite split_from_token by exact Hns; simpl.
      rewrite Hne; f_equal; exact IH.
Qed.

Lemma split_tokens_clean line :
  Forall (fun t => t <> "" /\ no_space t = true) (split line).
Proof.
  pose proof (split_nonempty line) as H1.
  pose proof (split_from_tokens_no_space line "" eq_refl) as H2.
  fold (split line) in H2; rewrite Forall_forall in *; auto.
Qed.

(** X18. The CUSTOMER NAME of a record is never empty and has no white
    space other than single spaces between the name tokens: splitting it
    gives back exactly the tokens between the file name and the customer
    id. *)
Theorem customer_name_round_trip line rec :
  parse_records_from_lines [line] = Ok [rec] ->
  exists customer_name,
    lookup rec "CUSTOMER NAME" = Some customer_name
    /\ customer_name <> ""
    /\ split customer_name = slice_1_m2 (split line).
Proof.
  rewrite parse_records_from_lines_loop; simpl.
  destruct (parse_line_cases line)
    as [[_ ->] | [(_ & -> & _) | (Hacc & md & am & _ & _ & ->)]];
    cbn [bind]; try discriminate.
  intros [= <-]; exists (customer_name_of line).
  split; [reflexivity|].
  assert (Hsplit : split (customer_name_of line) = slice_1_m2 (split line)).
  { apply split_join; unfold slice_1_m2.
    pose proof (split_tokens_clean line) as H; rewrite Forall_forall in *.
    intros t Ht; apply H; now apply slice_1_m2_In. }
  split; [|exact Hsplit].
  intros E; rewrite E in Hsplit.
  apply (f_equal (@List.length string)) in Hsplit.
  unfold accepted in Hacc; apply andb_true_iff in Hacc.
  destruct Hacc as [Hlen _]; apply Nat.leb_le in Hlen.
  unfold slice_1_m2 in Hsplit.
  rewrite length_skipn, length_firstn in Hsplit; simpl in Hsplit; lia.
Qed.

Lemma customer_name_round_trip_witness :
  parse_records_from_lines ["x.pdf Jane   van  Doe 123456 KC2-BL001"]
  = Ok [record "" "Jane van Doe" "123456" "123456" "KC2-BL001"]
  /\ exists customer_name,
       lookup (record "" "Jane van Doe" "123456" "123456" "KC2-BL001")
         "CUSTOMER NAME" = Some customer_name
       /\ customer_name <> ""
       /\ split customer_name = ["Jane"; "van"; "Doe"].
Proof.
  assert (H : parse_records_from_lines
                ["x.pdf Jane   van  Doe 123456 KC2-BL001"]
              = Ok [record "" "Jane van Doe" "123456" "123456"
                      "KC2-BL001"]) by (vm_compute; reflexivity).
  split; [exact H|].
  exact (customer_name_round_trip _ _ H).
Defined.

(** *** Writing the records *)

Lemma header_same : CSV_HEADER = FixCsv.EXPECTED_HEADER.
Proof. reflexivity. Qed.

Lemma written_row_of (value : string -> string) :
  dictwriter_row CSV_HEADER
    (fold_left (fun row key => dict_set row key (value key)) CSV_HEADER [])
  = Some (map value CSV_HEADER).
Proof. vm_compute; reflexivity. Qed.

(** The row built for a record and what [DictWriter] makes of it. *)
Lemma written_row (rec : dict) :
  dictwriter_row CSV_HEADER
    (fold_left (fun row key => dict_set row key (dict_get rec key ""))
       CSV_HEADER [])
  = Some (map (fun key => dict_get rec key "") CSV_HEADER).
Proof. exact (written_row_of (fun key => dict_get rec key "")). Qed.

Lemma write_rows_all records :
  forall written,
    write_rows records written
    = Some (written
            ++ map (fun rec => map (fun key => dict_get rec key "")
                                 CSV_HEADER) records)%list.
Proof.
  induction records as [|rec rest IH]; intros written;
    cbn [write_rows map].
  - now rewrite app_nil_r.
  - rewrite written_row, IH, <- app_assoc; reflexivity.
Qed.

(** X19. [write_csv] never fails on a record, whatever its keys: after the
    header it writes one row of exactly 19 values for each record, in the
    order of the records; a key the record lacks gives an empty value and
    a key outside the schema is left out. *)
Theorem write_csv_rows records :
  exists rows,
    write_csv records = Some (CSV_HEADER :: rows)
    /\ Forall2
         (fun rec row =>
            List.length row = 19
            /\ forall i key,
                 nth_error CSV_HEADER i = Some key ->
                 nth_error row i = Some (dict_get rec key ""))
         records rows.
Proof.
  unfold write_csv; rewrite write_rows_all; cbn [app].
  eexists; split; [reflexivity|].
  induction records as [|rec rest IH]; cbn [map]; constructor; auto.
  split; [now rewrite length_map|].
  intros i key Hkey; rewrite nth_error_map, Hkey; reflexivity.
Qed.

Lemma record_row amount name customer_id info error_code :
  map (fun key =>
         dict_get (record amount name customer_id info error_code) key "")
    CSV_HEADER
  = map snd (record amount name customer_id info error_code).
Proof. reflexivity. Qed.

(** X20. The two programs fit: what [write_csv] writes for the records of
    [parse_records_from_lines] is the header and, for each record, its 19
    values in order; and [fix_csv.py], given these rows, writes them back
    unchanged. *)
Theorem fixer_keeps_extracted_rows lines records argv :
  parse_records_from_lines lines = Ok records ->
  2 <= List.length argv ->
  write_csv records = Some (CSV_HEADER :: map (map snd) records)
  /\ FixCsv.main argv (CSV_HEADER :: map (map snd) records)
     = Ok (0, Some (CSV_HEADER :: map (map snd) records)).
Proof.
  intros Hparse Hargv.
  rewrite parse_records_from_lines_loop in Hparse.
  apply parse_lines_records in Hparse.
  assert (Hrec : Forall (fun rec => exists a n c i e, rec = record a n c i e)
                   records).
  { induction Hparse as [|line rec ls rs (md & am & _ & _ & ->) _ IH];
      constructor; eauto 6. }
  clear Hparse; split.
  - unfold write_csv; rewrite write_rows_all; cbn [app].
    do 2 f_equal; apply map_ext_in; intros rec Hin.
    rewrite Forall_forall in Hrec.
    destruct (Hrec _ Hin) as (a & n & c & i & e & ->).
    apply record_row.
  - unfold FixCsv.main.
    destruct (Nat.ltb_spec (List.length argv) 2); [lia|].
    simpl skipn; rewrite write_fixed_keeps_19.
    + rewrite header_same; reflexivity.
    + apply Forall_forall; intros row Hin; apply in_map_iff in Hin.
      destruct Hin as (rec & <- & Hin); rewrite Forall_forall in Hrec.
      destruct (Hrec _ Hin) as (a & n & c & i & e & ->); reflexivity.
Qed.

Lemma fixer_keeps_extracted_rows_witness :
  parse_records_from_lines ["x.pdf Ann Lee 77 E9"]
  = Ok [record "" "Ann Lee" "77" "77" "E9"]
  /\ 2 <= List.length ["in.csv"; "out.csv"]
  /\ write_csv [record "" "Ann Lee" "77" "77" "E9"]
     = Some [ CSV_HEADER;
              [ "REJECTED"; ""; "PPS Perfunctio Payment Services GmbH"; "";
                ""; ""; ""; "Ann Lee"; "77"; ""; ""; ""; ""; "77"; "";
                "E9"; ""; ""; "" ] ]
  /\ FixCsv.main ["in.csv"; "out.csv"]
       [ CSV_HEADER;
         [ "REJECTED"; ""; "PPS Perfunctio Payment Services GmbH"; "";
           ""; ""; ""; "Ann Lee"; "77"; ""; ""; ""; ""; "77"; "";
           "E9"; ""; ""; "" ] ]
     = Ok (0, Some
              [ CSV_HEADER;
                [ "REJECTED"; ""; "PPS Perfunctio Payment Services GmbH";
                  ""; ""; ""; ""; "Ann Lee"; "77"; ""; ""; ""; ""; "77";
                  ""; "E9"; ""; ""; "" ] ]).
Proof.
  assert (H1 : parse_records_from_lines ["x.pdf Ann Lee 77 E9"]
               = Ok [record "" "Ann Lee" "77" "77" "E9"])
    by (vm_compute; reflexivity).
  assert (H2 : 2 <= List.length ["in.csv"; "out.csv"]) by (simpl; lia).
  split; [exact H1|]; split; [exact H2|].
  exact (fixer_keeps_extracted_rows _ _ _ H1 H2).
Defined.

End Pdf2csvMore.

(** ** pdf2csv.py: the lines of a document *)

Section ExtractMore.

Import Pdf2csv.
Local Open Scope string_scope.

Implicit Types (s cur : string) (p : ascii -> bool).

Lemma rstrip_idempotent s : rstrip (rstrip s) = rstrip s.
Proof.
  induction s as [|c s IH]; simpl; [reflexivity|].
  destruct (rstrip s) as [|k kept] eqn:E.
  - destruct (is_space c) eqn:Hc; simpl; [reflexivity | now rewrite Hc].
  - simpl in IH |- *; now rewrite IH.
Qed.

Lemma lstrip_keeps_rstripped s : rstrip s = s -> rstrip (lstrip s) = lstrip s.
Proof.
  induction s as [|c s IH]; simpl; [reflexivity|]; intros H.
  destruct (is_space c) eqn:Hc.
  - apply IH; destruct (rstrip s) as [|k kept]; [discriminate | congruence].
  - simpl; rewrite Hc; exact H.
Qed.

Lemma lstrip_idempotent s : lstrip (lstrip s) = lstrip s.
Proof.
  induction s as [|c s IH]; simpl; [reflexivity|].
  destruct (is_space c) eqn:Hc; [exact IH | simpl; now rewrite Hc].
Qed.

Lemma strip_idempotent s : strip (strip s) = strip s.
Proof.
  unfold strip.
  rewrite (lstrip_keeps_rstripped (rstrip s)) by apply rstrip_idempotent.
  apply lstrip_idempotent.
Qed.

Lemma all_chars_lstrip p s :
  all_chars p s = true -> all_chars p (lstrip s) = true.
Proof.
  induction s as [|c s IH]; simpl; auto; intros H.
  destruct (is_space c); [|exact H].
  apply andb_true_iff in H; apply IH; tauto.
Qed.

Lemma all_chars_rstrip p s :
  all_chars p s = true -> all_chars p (rstrip s) = true.
Proof.
  induction s as [|c s IH]; simpl; auto; intros H.
  apply andb_true_iff in H; destruct H as [Hc Hs].
  specialize (IH Hs); destruct (rstrip s) as [|k kept].
  - destruct (is_space c); simpl; [reflexivity | now rewrite Hc].
  - change (all_chars p (String c (String k kept)))
      with (p c && all_chars p (String k kept)).
    now rewrite Hc, IH.
Qed.

Lemma splitlines_from_no_break n :
  forall s cur,
    String.length s <= n ->
    all_chars (fun c => negb (is_linebreak c)) cur = true ->
    Forall (fun l => all_chars (fun c => negb (is_linebreak c)) l = true)
      (splitlines_from cur s).
Proof.
  induction n as [|n IH]; intros [|c rest] cur Hlen Hcur; simpl in *;
    try lia;
    try (destruct (truthy cur); constructor; auto; fail).
  destruct (is_linebreak c) eqn:Hc.
  - constructor; [exact Hcur|].
    destruct rest as [|d rest']; [apply IH; simpl; auto; lia|].
    destruct ((nat_of_ascii c =? 13)%nat && (nat_of_ascii d =? 10)%nat);
      apply IH; simpl in *; auto; lia.
  - apply IH; [lia|].
    rewrite all_chars_append, Hcur; simpl; now rewrite Hc.
Qed.

Lemma splitlines_no_break s :
  Forall (fun l => all_chars (fun c => negb (is_linebreak c)) l = true)
    (splitlines s).
Proof.
  apply (splitlines_from_no_break (String.length s));
    [apply le_n | reflexivity].
Qed.

Lemma page_lines_append (text_lines lines : list string) :
  fold_left
    (fun lines line =>
       let cleaned := strip line in
       if truthy cleaned then (lines ++ [cleaned])%list else lines)
    text_lines lines
  = (lines ++ filter truthy (map strip text_lines))%list.
Proof.
  revert lines; induction text_lines as [|line rest IH]; intros lines;
    simpl.
  - now rewrite app_nil_r.
  - rewrite IH; destruct (truthy (strip line)); [|reflexivity].
    now rewrite <- app_assoc.
Qed.

Lemma fold_left_flat_map {A B : Type} (f : A -> list B)
    (step : list B -> A -> list B) (l : list A) (acc : list B) :
  (forall acc a, step acc a = (acc ++ f a)%list) ->
  fold_left step l acc = (acc ++ flat_map f l)%list.
Proof.
  intros Hstep; revert acc; induction l as [|a l IH]; intros acc; simpl.
  - now rewrite app_nil_r.
  - rewrite IH, Hstep, <- app_assoc; reflexivity.
Qed.

(** The lines of a document, page by page. *)
Lemma extract_text_lines_pages pages :
  extract_text_lines pages
  = flat_map
      (fun page =>
         filter truthy
           (map strip
              (splitlines
                 match page with
                 | Some extracted => or_else extracted ""
                 | None => ""
                 end)))
      pages.
Proof.
  unfold extract_text_lines.
  rewrite (fold_left_flat_map
             (fun page =>
                filter truthy
                  (map strip
                     (splitlines
                        match page with
                        | Some extracted => or_else extracted ""
                        | None => ""
                        end)))).
  - reflexivity.
  - intros lines page; apply page_lines_append.
Qed.

Lemma extracted_lines_clean_lemma pages :
  Forall
    (fun line =>
       line <> ""
       /\ strip line = line
       /\ all_chars (fun c => negb (is_linebreak c)) line = true)
    (extract_text_lines pages).
Proof.
  rewrite extract_text_lines_pages, Forall_forall; intros line Hin.
  apply in_flat_map in Hin; destruct Hin as (page & _ & Hin).
  apply filter_In in Hin; destruct Hin as [Hin Hne].
  apply in_map_iff in Hin; destruct Hin as (raw & <- & Hraw).
  split; [now apply truthy_nonempty|].
  split; [apply strip_idempotent|].
  apply all_chars_lstrip, all_chars_rstrip.
  exact (proj1 (Forall_forall _ _) (splitlines_no_break _) _ Hraw).
Qed.

Lemma splitlines_from_keeps p n :
  forall s cur,
    String.length s <= n ->
    all_chars p s = true -> all_chars p cur = true ->
    Forall (fun l => all_chars p l = true) (splitlines_from cur s).
Proof.
  induction n as [|n IH]; intros [|c rest] cur Hlen Hs Hcur; simpl in *;
    try lia;
    try (destruct (truthy cur); constructor; auto; fail).
  apply andb_true_iff in Hs; destruct Hs as [Hc Hrest].
  destruct (is_linebreak c).
  - constructor; [exact Hcur|].
    destruct rest as [|d rest']; [apply IH; simpl; auto; lia|].
    destruct ((nat_of_ascii c =? 13)%nat && (nat_of_ascii d =? 10)%nat);
      [|apply IH; simpl in *; auto; lia].
    simpl in Hrest; apply andb_true_iff in Hrest.
    apply IH; simpl in *; auto; try tauto; lia.
  - apply IH; auto; [lia|].
    rewrite all_chars_append, Hcur; simpl; now rewrite Hc.
Qed.

Lemma strip_blank s : all_chars is_space s = true -> strip s = "".
Proof.
  intros H; unfold strip.
  assert (E : rstrip s = "").
  { induction s as [|c s IH]; simpl in *; [reflexivity|].
    apply andb_true_iff in H; destruct H as [Hc Hs].
    now rewrite (IH Hs), Hc. }
  now rewrite E.
Qed.

Lemma blank_page_lines blank :
  all_chars is_space blank = true ->
  filter truthy (map strip (splitlines (or_else blank ""))) = [].
Proof.
  intros H; rewrite or_else_empty.
  assert (Hall : Forall (fun l => all_chars is_space l = true)
                   (splitlines blank))
    by (apply (splitlines_from_keeps is_space (String.length blank));
        [apply le_n | exact H | reflexivity]).
  induction Hall as [|l ls Hl _ IH]; simpl; [reflexivity|].
  now rewrite (strip_blank _ Hl).
Qed.

(** X21. Every line that [extract_text_lines] returns is non-empty, has no
    white space at either end (stripping it again changes nothing) and
    contains no line break. *)
Theorem extracted_lines_are_clean pages :
  Forall
    (fun line =>
       line <> ""
       /\ strip line = line
       /\ all_chars (fun c => negb (is_linebreak c)) line = true)
    (extract_text_lines pages).
Proof. apply extracted_lines_clean_lemma. Qed.

(** X22. The lines of a document are the lines of its pages in page
    order, each page read on its own; a page without text, or with white
    space only, gives no line. *)
Theorem extracted_lines_by_page pages1 pages2 :
  extract_text_lines (pages1 ++ pages2)%list
  = (extract_text_lines pages1 ++ extract_text_lines pages2)%list
  /\ extract_text_lines (pages1 ++ None :: pages2)%list
     = extract_text_lines (pages1 ++ pages2)%list
  /\ forall blank,
       all_chars is_space blank = true ->
       extract_text_lines (pages1 ++ Some blank :: pages2)%list
       = extract_text_lines (pages1 ++ pages2)%list.
Proof.
  rewrite !extract_text_lines_pages, !flat_map_app.
  split; [reflexivity|]; split; [reflexivity|].
  intros blank Hblank; rewrite !extract_text_lines_pages, !flat_map_app.
  cbn [flat_map]; now rewrite (blank_page_lines _ Hblank).
Qed.

Lemma splitlines_from_line w :
  forall cur s,
    all_chars (fun c => negb (is_linebreak c)) w = true ->
    splitlines_from cur (w ++ s) = splitlines_from (cur ++ w) s.
Proof.
  induction w as [|c w IH]; intros cur s H; simpl in *.
  - now rewrite append_nil_r.
  - apply andb_true_iff in H; destruct H as [Hc Hw].
    apply negb_true_iff in Hc; rewrite Hc, IH by exact Hw.
    now rewrite append_assoc.
Qed.

Lemma splitlines_from_newline cur s :
  splitlines_from cur (String "010" s) = cur :: splitlines_from "" s.
Proof. destruct s; reflexivity. Qed.

Lemma splitlines_join lines :
  Forall
    (fun line =>
       line <> ""
       /\ strip line = line
       /\ all_chars (fun c => negb (is_linebreak c)) line = true)
    lines ->
  splitlines (join (String "010" "") lines) = lines.
Proof.
  unfold splitlines, join;
    induction 1 as [|line rest (Hne & _ & Hnb) Hrest IH]; simpl.
  - reflexivity.
  - apply truthy_nonempty in Hne.
    destruct rest as [|line' rest'].
    + rewrite <- (append_nil_r line) at 1.
      rewrite splitlines_from_line by exact Hnb; simpl; now rewrite Hne.
    + rewrite splitlines_from_line by exact Hnb.
      cbn [append]; rewrite splitlines_from_newline.
      f_equal; exact IH.
Qed.

Lemma clean_lines_kept (lines : list string) :
  Forall
    (fun line =>
       line <> ""
       /\ strip line = line
       /\ all_chars (fun c => negb (is_linebreak c)) line = true)
    lines ->
  filter truthy (map strip lines) = lines.
Proof.
  induction 1 as [|line rest (Hne & Hstrip & _) _ IH]; simpl;
    [reflexivity|].
  apply truthy_nonempty in Hne; rewrite Hstrip, Hne; f_equal; exact IH.
Qed.

(** X23. The text dump loses nothing: read back line by line it is the
    list of extracted lines, and extracting from it as from a one-page
    document gives the same lines again. *)
Theorem dump_text_round_trip pages :
  splitlines (dump_text pages) = extract_text_lines pages
  /\ extract_text_lines [Some (dump_text pages)] = extract_text_lines pages.
Proof.
  pose proof (extracted_lines_clean_lemma pages) as Hclean.
  assert (Hsplit : splitlines (dump_text pages) = extract_text_lines pages)
    by (apply splitlines_join, Hclean).
  split; [exact Hsplit|].
  rewrite (extract_text_lines_pages [_]); cbn [flat_map].
  rewrite or_else_empty, Hsplit, app_nil_r.
  now apply clean_lines_kept.
Qed.

End ExtractMore.
